(** * VAIexpress order ledger: pricing and bookkeeping of [index.js]

    A shallow embedding of the service's core:
    - [computeTotals], the pricing function (index.js, lines 32-61), over
      JavaScript values with their coercions ([Number(x || 0)]);
    - the handlers that create, read, update, delete and list orders ([POST]
      and [GET] on [/api/orders], [GET], [PUT] and [DELETE] on
      [/api/orders/:id]) and the summary handler ([GET /api/stats/summary]),
      as state-passing programs over the two tables the queries name,
      [settings] and [orders].

    JavaScript numbers are IEEE 754 binary64 values: they are modelled by
    Rocq's primitive floats, so that every product, sum and difference of the
    source rounds, overflows and produces NaN exactly as it does in Node.

    What stands outside the source is taken as follows. The request body is
    the object [express.json()] parsed. The clock is a parameter, the date
    [new Date().toISOString().slice(0, 10)] gives. A table column holds the
    value the handler bound to it. A query may fail; which ones do is a
    parameter as well. The comparisons of the summary's [WHERE] clauses, the
    comparison of dates under the listing's [ORDER BY] and the error of a
    [LIMIT] that is no count belong to the database, and are parameters of
    the summary and of the listing. *)

From Stdlib Require Import ZArith NArith Bool List Ascii String Floats.
From stdpp Require Import base option gmap strings list fin_maps.

Local Open Scope string_scope.
Local Open Scope Z_scope.

(** ** JavaScript values *)

(** What [express.json()] puts into [req.body], and what the database driver
    hands back: the JSON values, plus [undefined] for a property that is not
    there. *)
Inductive value : Type :=
  | VUndefined
  | VNull
  | VBool (b : bool)
  | VNum (f : float)
  | VStr (s : string)
  | VArr (l : list value)
  | VObj (l : list (string * value)).

(** A parsed JSON object used as a record: [payload.k] is [undefined] when the
    key is missing. *)
Definition get (k : string) (o : gmap string value) : value :=
  default VUndefined (o !! k).

(** ** Numbers *)

Module Num.

(** The number value of an integer: round to nearest, ties to even. *)
Definition of_Z (z : Z) : float :=
  SF2Prim (binary_normalize prec emax z 0 false).

Definition signed (neg : bool) (n : N) : Z :=
  if neg then - Z.of_N n else Z.of_N n.

Definition signed_zero (neg : bool) : float :=
  if neg then neg_zero else zero.

Definition signed_infinity (neg : bool) : float :=
  if neg then neg_infinity else infinity.

(** The number value of [m * 10^e], correctly rounded. For a negative
    exponent the quotient is taken with 64 bits or more and a sticky bit, so
    that rounding it rounds the exact value. Exponents too large or too small
    for any double are cut off before a power of ten is built. *)
Definition of_decimal (neg : bool) (m : N) (e : Z) : float :=
  if (m =? 0)%N then signed_zero neg
  else if 0 <=? e then
    if 400 <? e then signed_infinity neg
    else of_Z (signed neg m * 10 ^ e)
  else
    let k := - e in
    if Z.log2 (Z.of_N m) + 401 <? k then signed_zero neg
    else
      let d := 10 ^ k in
      let s := Z.max 0 (Z.log2 d - Z.log2 (Z.of_N m) + 64) in
      let n := Z.of_N m * 2 ^ s in
      let q := n / d in
      let sticky := if n mod d =? 0 then 0 else 1 in
      let mant := 2 * q + sticky in
      SF2Prim (binary_normalize prec emax (if neg then - mant else mant) (- s - 1) false).

(** The integer a number is, when it is one: [NaN], the infinities and the
    numbers with a fraction are none. *)
Definition to_Z (f : float) : option Z :=
  match Prim2SF f with
  | S754_zero _ => Some 0
  | S754_finite s m e =>
      if 0 <=? e then Some (cond_Zopp s (Zpos m * 2 ^ e))
      else if Zpos m mod 2 ^ (- e) =? 0 then Some (cond_Zopp s (Zpos m / 2 ^ (- e)))
      else None
  | _ => None
  end.

End Num.

(** ** [StringToNumber]: the number a string denotes *)

Module StrNum.

Definition codes (s : string) : list N :=
  map N_of_ascii (list_ascii_of_string s).

(** Length in bytes of the white space or line terminator character that
    starts [l] (UTF-8), [0] when there is none: TAB, LF, VT, FF, CR, SP,
    U+00A0, U+1680, U+2000..U+200A, U+2028, U+2029, U+202F, U+205F, U+3000
    and U+FEFF. *)
Definition ws_head (l : list N) : nat :=
  match l with
  | (9 | 10 | 11 | 12 | 13 | 32)%N :: _ => 1
  | 194%N :: 160%N :: _ => 2
  | 225%N :: 154%N :: 128%N :: _ => 3
  | 226%N :: 128%N :: c :: _ =>
      if ((128 <=? c) && (c <=? 138) || (c =? 168) || (c =? 169) || (c =? 175))%N
      then 3 else 0
  | 226%N :: 129%N :: 159%N :: _ => 3
  | 227%N :: 128%N :: 128%N :: _ => 3
  | 239%N :: 187%N :: 191%N :: _ => 3
  | _ => 0
  end%nat.

(** The same for the character that ends the string, read backwards. *)
Definition ws_last (l : list N) : nat :=
  match l with
  | (9 | 10 | 11 | 12 | 13 | 32)%N :: _ => 1
  | 160%N :: 194%N :: _ => 2
  | 128%N :: 154%N :: 225%N :: _ => 3
  | c :: 128%N :: 226%N :: _ =>
      if ((128 <=? c) && (c <=? 138) || (c =? 168) || (c =? 169) || (c =? 175))%N
      then 3 else 0
  | 159%N :: 129%N :: 226%N :: _ => 3
  | 128%N :: 128%N :: 227%N :: _ => 3
  | 191%N :: 187%N :: 239%N :: _ => 3
  | _ => 0
  end%nat.

Fixpoint strip (head : list N -> nat) (fuel : nat) (l : list N) : list N :=
  match fuel with
  | O => l
  | S fuel' =>
      match head l with
      | O => l
      | n => strip head fuel' (skipn n l)
      end
  end.

Definition trim (l : list N) : list N :=
  let l1 := strip ws_head (length l) l in
  rev (strip ws_last (length l1) (rev l1)).

(** The value of a digit in a base, if it is one. *)
Definition digit (base c : N) : option N :=
  let d :=
    if ((48 <=? c) && (c <=? 57))%N then Some (c - 48)%N
    else if ((97 <=? c) && (c <=? 102))%N then Some (c - 87)%N
    else if ((65 <=? c) && (c <=? 70))%N then Some (c - 55)%N
    else None in
  match d with
  | Some v => if (v <? base)%N then Some v else None
  | None => None
  end.

(** Reads the longest run of digits: the number read so far, how many
    digits, and what follows. *)
Fixpoint digits (base : N) (acc : N) (cnt : nat) (l : list N) : N * nat * list N :=
  match l with
  | c :: l' =>
      match digit base c with
      | Some v => digits base (acc * base + v)%N (S cnt) l'
      | None => (acc, cnt, l)
      end
  | [] => (acc, cnt, l)
  end.

(** [0x], [0o] and [0b] literals: digits only, no sign. *)
Definition radix_literal (base : N) (l : list N) : float :=
  match digits base 0%N 0%nat l with
  | (v, S _, []) => Num.of_Z (Z.of_N v)
  | _ => nan
  end.

Definition sign (l : list N) : bool * list N :=
  match l with
  | 43%N :: l' => (false, l')
  | 45%N :: l' => (true, l')
  | _ => (false, l)
  end.

(** The exponent part, [e] or [E], a sign and one digit or more; [None] when
    the text is not a well-formed end of a literal. *)
Definition exponent (l : list N) : option Z :=
  match l with
  | [] => Some 0
  | (101 | 69)%N :: l' =>
      let '(neg, l'') := sign l' in
      match digits 10%N 0%N 0%nat l'' with
      | (v, S _, []) => Some (Num.signed neg v)
      | _ => None
      end
  | _ => None
  end.

(** [StrUnsignedDecimalLiteral] other than [Infinity]: digits, an optional
    fraction, an optional exponent; one digit at least before the exponent. *)
Definition decimal (neg : bool) (l : list N) : float :=
  let '(ip, ni, l1) := digits 10%N 0%N 0%nat l in
  let '(m, nf, l2) :=
    match l1 with
    | 46%N :: l1' => let '(m, n, r) := digits 10%N ip 0%nat l1' in (m, n, r)
    | _ => (ip, 0%nat, l1)
    end in
  match (ni + nf)%nat with
  | O => nan
  | S _ =>
      match exponent l2 with
      | Some e => Num.of_decimal neg m (e - Z.of_nat nf)
      | None => nan
      end
  end.

Definition literal (l : list N) : float :=
  match l with
  | [] => zero
  | 48%N :: (120 | 88)%N :: l' => radix_literal 16%N l'
  | 48%N :: (111 | 79)%N :: l' => radix_literal 8%N l'
  | 48%N :: (98 | 66)%N :: l' => radix_literal 2%N l'
  | _ =>
      let '(neg, l') := sign l in
      if decide (l' = codes "Infinity") then Num.signed_infinity neg
      else decimal neg l'
  end.

Definition StringToNumber (s : string) : float :=
  literal (trim (codes s)).

End StrNum.

Import StrNum.

(** ** Strings as JavaScript indexes them

    A string is held as its UTF-8 bytes, and JavaScript counts UTF-16 code
    units: one for a character of one, two or three bytes, two (a surrogate
    pair) for a character of four. *)

Module Utf16.

(** The code units of a string of well-formed UTF-8. *)
Fixpoint units (l : list N) : list N :=
  match l with
  | [] => []
  | a :: l1 =>
      if (a <? 192)%N then a :: units l1
      else if (a <? 224)%N then
        match l1 with
        | b :: l2 => ((a mod 32) * 64 + b mod 64)%N :: units l2
        | [] => [a]
        end
      else if (a <? 240)%N then
        match l1 with
        | b :: c :: l3 =>
            ((a mod 16) * 4096 + (b mod 64) * 64 + c mod 64)%N :: units l3
        | _ => a :: units l1
        end
      else
        match l1 with
        | b :: c :: d :: l4 =>
            let cp :=
              ((a mod 8) * 262144 + (b mod 64) * 4096 + (c mod 64) * 64 + d mod 64
               - 65536)%N in
            (55296 + cp / 1024)%N :: (56320 + cp mod 1024)%N :: units l4
        | _ => a :: units l1
        end
  end.

(** The three bytes of a code unit from U+0800 on. *)
Definition three (x : N) : list N :=
  [224 + x / 4096; 128 + (x / 64) mod 64; 128 + x mod 64]%N.

(** The bytes of a sequence of code units. A surrogate pair is the four bytes
    of its character; a surrogate cut off from its partner keeps three bytes
    of its own. *)
Fixpoint bytes (u : list N) : list N :=
  match u with
  | [] => []
  | x :: u1 =>
      if (x <? 128)%N then x :: bytes u1
      else if (x <? 2048)%N then (192 + x / 64)%N :: (128 + x mod 64)%N :: bytes u1
      else
        match u1 with
        | y :: u2 =>
            if ((55296 <=? x) && (x <? 56320) && (56320 <=? y) && (y <? 57344))%N
            then
              let cp := (65536 + (x - 55296) * 1024 + (y - 56320))%N in
              (240 + cp / 262144)%N :: (128 + (cp / 4096) mod 64)%N
                :: (128 + (cp / 64) mod 64)%N :: (128 + cp mod 64)%N :: bytes u2
            else three x ++ bytes u1
        | [] => three x
        end
  end.

(** [s.slice(from, to)], for indices that are not negative. *)
Definition slice (from to : nat) (s : string) : string :=
  string_of_list_ascii
    (map ascii_of_N (bytes (take (to - from) (drop from (units (codes s)))))).

End Utf16.

(** ** Coercions *)

(** How a call completes: it returns, or it throws an error with a message. *)
Inductive completion (A : Type) : Type :=
  | Return (a : A)
  | Throw (message : string).
Arguments Return {A} a.
Arguments Throw {A} message.

Definition and_then {A B} (c : completion A) (k : A -> completion B) : completion B :=
  match c with
  | Return a => k a
  | Throw e => Throw e
  end.

Notation "'let!' x ':=' c 'in' k" := (and_then c (fun x => k))
  (at level 10, x name, c at level 100, k at level 200).

Definition is_Return {A} (c : completion A) : bool :=
  match c with
  | Return _ => true
  | Throw _ => false
  end.

(** [ToBoolean]: [undefined], [null], [false], [+0], [-0], [NaN] and the empty
    string are falsy, everything else (objects and arrays too) is truthy. *)
Definition ToBoolean (v : value) : bool :=
  match v with
  | VUndefined | VNull => false
  | VBool b => b
  | VNum f => negb (is_zero f || is_nan f)
  | VStr s => negb (String.eqb s "")
  | VArr _ | VObj _ => true
  end.

(** [a || b]: the left operand when it is truthy, else the right one. *)
Definition js_or (a b : value) : value :=
  if ToBoolean a then a else b.

(** An object or array becomes a number through its string. A parsed object
    answers with [Object.prototype.toString], unless it has a member of its
    own named [toString]: no JSON value is callable, and then neither
    [valueOf] (which returns the object) nor [toString] yields a primitive.
    An array joins the strings of its elements, so it fails when one of them
    does. *)
Fixpoint ToPrimitive_throws (v : value) : bool :=
  match v with
  | VObj members => existsb (fun m => String.eqb m.1 "toString") members
  | VArr l => existsb ToPrimitive_throws l
  | _ => false
  end.

(** [ToNumber], for a value whose conversion to a primitive does not throw. An
    array is the join of its elements by commas, where [null] and [undefined]
    are empty and a number prints as a literal that reads back as itself
    ([-0] prints as [0]); a plain object is ["[object Object]"]. So an empty
    array is [0], an array of one element is the number of that element's
    string, and anything with a comma or a word in it is [NaN]. *)
Fixpoint ToNumber (v : value) : float :=
  match v with
  | VUndefined => nan
  | VNull => zero
  | VBool b => if b then one else zero
  | VNum f => f
  | VStr s => StringToNumber s
  | VArr [] => zero
  | VArr [x] =>
      match x with
      | VUndefined | VNull => zero
      | VBool _ => nan
      | VNum f => if is_zero f then zero else f
      | VStr s => StringToNumber s
      | VArr _ => ToNumber x
      | VObj _ => nan
      end
  | VArr (_ :: _ :: _) => nan
  | VObj _ => nan
  end.

(** [Number(v)]. *)
Definition Number (v : value) : completion float :=
  if ToPrimitive_throws v
  then Throw "Cannot convert object to primitive value"
  else Return (ToNumber v).

(** ** The pricing function *)

(** The object [computeTotals] returns (index.js, lines 48-60). *)
Record totals : Type := Totals {
  price_thb : float;
  shipping_thb : float;
  customer_rate : float;
  service_fee_lak : float;
  th_to_la_charge_lak : float;
  actual_th_to_la_cost_lak : float;
  price_lak : float;
  shipping_lak : float;
  total_lak : float;
  rate_profit_lak : float;
  net_profit_lak : float;
}.

(** [computeTotals] (index.js, lines 32-61); [payload] is the parsed body. *)
Definition computeTotals (payload : gmap string value) (baseRate : float) : completion totals :=
  let! priceThb := Number (js_or (get "price_thb" payload) (VNum 0)) in
  let! shipThb := Number (js_or (get "shipping_thb" payload) (VNum 0)) in
  let! serviceFee := Number (js_or (get "service_fee_lak" payload) (VNum 0)) in
  let! thToLaCharge := Number (js_or (get "th_to_la_charge_lak" payload) (VNum 0)) in
  let! actualCost := Number (js_or (get "actual_th_to_la_cost_lak" payload) (VNum 0)) in
  let! customerRate := Number (js_or (get "customer_rate" payload) (VNum baseRate)) in

  let priceLak := (priceThb * customerRate)%float in
  let shipLak := (shipThb * customerRate)%float in
  let totalLak := (priceLak + shipLak + serviceFee + thToLaCharge)%float in

  let rateProfitLak := ((priceThb + shipThb) * (customerRate - baseRate))%float in
  let costLak := ((priceThb * baseRate) + (shipThb * baseRate) + actualCost)%float in
  let netProfitLak := (totalLak - costLak)%float in

  Return
    {| price_thb := priceThb;
       shipping_thb := shipThb;
       customer_rate := customerRate;
       service_fee_lak := serviceFee;
       th_to_la_charge_lak := thToLaCharge;
       actual_th_to_la_cost_lak := actualCost;
       price_lak := priceLak;
       shipping_lak := shipLak;
       total_lak := totalLak;
       rate_profit_lak := rateProfitLak;
       net_profit_lak := netProfitLak |}.

(** The six fields [computeTotals] reads as numbers. *)
Definition numeric_fields : list string :=
  ["price_thb"; "shipping_thb"; "service_fee_lak"; "th_to_la_charge_lak";
   "actual_th_to_la_cost_lak"; "customer_rate"].

(** Every numeric field of the body can be made a number. *)
Definition coercible (payload : gmap string value) : bool :=
  forallb (fun k => negb (ToPrimitive_throws (get k payload))) numeric_fields.

(** ** Numbers as JavaScript compares them *)

Module Ieee.

(** Zero of either sign. *)
Definition sf_zero (x : spec_float) : bool :=
  match x with S754_zero _ => true | _ => false end.

(** Neither NaN nor an infinity. *)
Definition sf_fin (x : spec_float) : bool :=
  match x with S754_zero _ | S754_finite _ _ _ => true | _ => false end.

(** The same number: equal, or zeros that differ in sign only. *)
Definition sf_same (x y : spec_float) : Prop :=
  x = y \/ (sf_zero x = true /\ sf_zero y = true).

(** JavaScript's [SameValueZero]: [==] on numbers, except that [NaN] is the
    same as [NaN]. *)
Definition SameValueZero (x y : float) : bool :=
  (x =? y)%float || (is_nan x && is_nan y).

End Ieee.

(** ** The tables and the queries

    The handlers reach two tables through [pool.query]. A column holds the
    value the handler bound to it; the route parameter [:id] is taken as the
    key the database compares it to. [settings] is read at [id = 1] only, so
    the table is that row, or no row. *)

Record settings_row : Type := SettingsRow {
  exchange_rate : value;
  updated_at : value;
}.

(** A row of [orders], as the order handlers bind it column by column
    (index.js, lines 241-250): the text columns, [rate], and the spread of what
    [computeTotals] returned. *)
Record order_row : Type := OrderRow {
  order_date : value;
  customer_name : value;
  product_link : value;
  payment_status : value;
  order_status : value;
  tracking_no : value;
  carrier : value;
  tracking_link : value;
  rate : float;
  fields : totals;
}.

Record store : Type := Store {
  settings : option settings_row;
  orders : gmap N order_row;
}.

(** A query can fail (connection lost, constraint violated): [faults] plans,
    query by query in the order they are issued, which ones reject and with
    what message. A query that rejects leaves the tables as they were. *)
Record world : Type := World {
  db : store;
  faults : list (option string);
}.

Inductive outcome (A : Type) : Type :=
  | Resolved (a : A)
  | Rejected (message : string).
Arguments Resolved {A} a.
Arguments Rejected {A} message.

(** An [async] computation: it runs on the tables and settles. *)
Definition Async (A : Type) : Type := world -> outcome A * world.

Definition resolve {A} (a : A) : Async A := fun w => (Resolved a, w).

Definition await_ {A B} (m : Async A) (k : A -> Async B) : Async B :=
  fun w =>
    match m w with
    | (Resolved a, w') => k a w'
    | (Rejected e, w') => (Rejected e, w')
    end.

Notation "'await' x '<-' m 'in' k" := (await_ m (fun x => k))
  (at level 10, x name, m at level 100, k at level 200).

(** A plain call inside an [async] function: what it throws rejects. *)
Definition settle {A} (c : completion A) : Async A :=
  fun w =>
    match c with
    | Return a => (Resolved a, w)
    | Throw e => (Rejected e, w)
    end.

Notation "'call' x '<-' c 'in' k" := (await_ (settle c) (fun x => k))
  (at level 10, x name, c at level 100, k at level 200).

(** [try { m } catch (err) { h err.message }]. *)
Definition try_catch {A} (m : Async A) (h : string -> Async A) : Async A :=
  fun w =>
    match m w with
    | (Resolved a, w') => (Resolved a, w')
    | (Rejected e, w') => h e w'
    end.

(** [pool.query(sql, params)], for the statement whose effect on the tables is
    [q]. *)
Definition pool_query {A} (q : store -> A * store) : Async A :=
  fun w =>
    match faults w with
    | Some e :: fs => (Rejected e, {| db := db w; faults := fs |})
    | None :: fs => let '(a, d) := q (db w) in (Resolved a, {| db := d; faults := fs |})
    | [] => let '(a, d) := q (db w) in (Resolved a, {| db := d; faults := [] |})
    end.

(** [Promise.all]: the queries were all issued when the array was built; the
    result is their results, or the first rejection. *)
Fixpoint Promise_all {A} (ms : list (Async A)) : Async (list A) :=
  match ms with
  | [] => resolve []
  | m :: ms' =>
      fun w =>
        let '(r, w1) := m w in
        let '(rs, w2) := Promise_all ms' w1 in
        match r, rs with
        | Resolved a, Resolved l => (Resolved (a :: l), w2)
        | Rejected e, _ => (Rejected e, w2)
        | Resolved _, Rejected e => (Rejected e, w2)
        end
  end.

Module Sql.

(** [SELECT exchange_rate FROM settings WHERE id = 1] and
    [SELECT exchange_rate AS rate, updated_at FROM settings WHERE id = 1]:
    the rows found. *)
Definition select_settings (st : store) : list settings_row * store :=
  (option_list (settings st), st).

(** [UPDATE orders SET ... WHERE id=?], with the number of rows the statement
    matched: the driver asks for found rows, so that is its [affectedRows]. *)
Definition update_order (id : N) (row : order_row) (st : store) : N * store :=
  match orders st !! id with
  | Some _ => (1%N, {| settings := settings st; orders := <[id := row]> (orders st) |})
  | None => (0%N, st)
  end.

(** [DELETE FROM orders WHERE id = ?], with the number of rows deleted. *)
Definition delete_order (id : N) (st : store) : N * store :=
  match orders st !! id with
  | Some _ => (1%N, {| settings := settings st; orders := delete id (orders st) |})
  | None => (0%N, st)
  end.

(** What the [WHERE] clauses of the summary leave to the database: how [=]
    compares a column with a bound parameter (coercion, collation), and the
    date functions [YEAR] and [MONTH]. *)
Class Engine : Type := {
  equals : value -> value -> bool;
  YEAR : value -> value;
  MONTH : value -> value;
}.

Definition rows (st : store) : list order_row :=
  (map_to_list (orders st)).*2.

(** [SELECT SUM(col) AS v FROM orders WHERE p]: [NULL] over no row. *)
Definition select_sum (col : order_row -> float) (p : order_row -> bool)
    (st : store) : value * store :=
  (match map col (filter (fun r => p r = true) (rows st)) with
   | [] => VNull
   | x :: xs => VNum (fold_left PrimFloat.add xs x)
   end, st).

(** [SELECT COUNT( * ) AS c FROM orders WHERE p]. *)
Definition select_count (p : order_row -> bool) (st : store) : value * store :=
  (VNum (Num.of_Z (Z.of_nat (length (filter (fun r => p r = true) (rows st))))), st).

(** [SELECT * FROM orders WHERE id = ?]: the rows found. *)
Definition select_order (id : N) (st : store) : list order_row * store :=
  (option_list (orders st !! id), st).

(** [INSERT INTO orders (...) VALUES (...)], with the id of the new row. The
    id comes from the table's counter, which never gives one in use:
    [insertId] is that id. *)
Definition insert_order (insertId : N) (row : order_row) (st : store) : N * store :=
  (insertId, {| settings := settings st; orders := <[insertId := row]> (orders st) |}).

(** What the listing leaves to the database: how two dates compare under
    [ORDER BY], and the message of the error it raises on a [LIMIT] that is
    not a count. *)
Class Listing : Type := {
  date_compare : value -> value -> comparison;
  limit_error : float -> string;
}.

(** A line of the listing: the nine columns the statement selects. *)
Record order_line : Type := OrderLine {
  line_id : N;
  line_order_date : value;
  line_customer_name : value;
  line_total_lak : float;
  line_net_profit_lak : float;
  line_payment_status : value;
  line_order_status : value;
  line_tracking_no : value;
  line_carrier : value;
}.

Definition line_of (r : N * order_row) : order_line :=
  {| line_id := r.1;
     line_order_date := order_date r.2;
     line_customer_name := customer_name r.2;
     line_total_lak := total_lak (fields r.2);
     line_net_profit_lak := net_profit_lak (fields r.2);
     line_payment_status := payment_status r.2;
     line_order_status := order_status r.2;
     line_tracking_no := tracking_no r.2;
     line_carrier := carrier r.2 |}.

(** [ORDER BY order_date DESC, id DESC]. *)
Definition newer `{Listing} (a b : N * order_row) : bool :=
  match date_compare (order_date a.2) (order_date b.2) with
  | Gt => true
  | Lt => false
  | Eq => (b.1 <? a.1)%N
  end.

Fixpoint insert_desc `{Listing} (a : N * order_row) (l : list (N * order_row))
    : list (N * order_row) :=
  match l with
  | [] => [a]
  | b :: l' => if newer a b then a :: l else b :: insert_desc a l'
  end.

Definition order_desc `{Listing} (l : list (N * order_row)) : list (N * order_row) :=
  foldr insert_desc [] l.

(** [SELECT id, order_date, ... FROM orders ORDER BY order_date DESC, id DESC
    LIMIT ?]: the first [limit] lines, or an error when [limit] is not a
    count (negative, or not a number). *)
Definition select_recent `{Listing} (limit : float) (st : store)
    : outcome (list order_line) * store :=
  (match Num.to_Z limit with
   | Some n =>
       if 0 <=? n
       then Resolved (map line_of (take (Z.to_nat n) (order_desc (map_to_list (orders st)))))
       else Rejected (limit_error limit)
   | None => Rejected (limit_error limit)
   end, st).

End Sql.

(** ** The handlers *)

(** The objects of the summary (index.js, lines 113-136). *)
Module Today.
Record t : Type := Make {
  total_lak : float;
  profit_total : float;
  rate_profit : float;
  other_profit : float;
  orders_count : float;
}.
End Today.

Module Month.
Record t : Type := Make {
  total_lak : float;
  profit_total : float;
  period : string;
}.
End Month.

Module Payments.
Record t : Type := Make {
  paid_orders : float;
  unpaid_orders : float;
  unpaid_value_lak : float;
}.
End Payments.

Module Summary.
Record t : Type := Make {
  date : string;
  rate : value;
  rate_updated : value;
  today : Today.t;
  month : Month.t;
  payments : Payments.t;
  gross_value_lak : float;
  all_orders_count : float;
}.
End Summary.

(** What a handler answers with: [res.status(n).json(...)], 200 when the
    status is not set. *)
Inductive body : Type :=
  | BError (error : string)
  | BDeleted
  | BOrder (id : N) (payload : order_row)
  | BSummary (summary : Summary.t).

Record response : Type := Response {
  status : N;
  json : body;
}.

(** [getBaseRate] (index.js, lines 27-30). *)
Definition getBaseRate : Async float :=
  await rows <- pool_query Sql.select_settings in
  match rows with
  | r :: _ => settle (Number (exchange_rate r))
  | [] => resolve zero
  end.

(** The object [payload] of the order handlers (index.js, lines 217-228): the
    text fields of the body with their defaults, the base rate, and the spread
    of [fields]; [now] is the date the clock gives,
    [new Date().toISOString().slice(0, 10)]. *)
Definition order_payload (now : string) (req_body : gmap string value)
    (baseRate : float) (fields : totals) : order_row :=
  {| order_date := js_or (get "order_date" req_body) (VStr now);
     customer_name := js_or (get "customer_name" req_body) (VStr "");
     product_link := js_or (get "product_link" req_body) (VStr "");
     payment_status := js_or (get "payment_status" req_body) (VStr "Unpaid");
     order_status := js_or (get "order_status" req_body) (VStr "Pending");
     tracking_no := js_or (get "tracking_no" req_body) (VStr "");
     carrier := js_or (get "carrier" req_body) (VStr "");
     tracking_link := js_or (get "tracking_link" req_body) (VStr "");
     rate := baseRate;
     fields := fields |}.

(** [PUT /api/orders/:id] (index.js, lines 212-258). *)
Definition put_order (now : string) (id : N) (req_body : gmap string value) : Async response :=
  try_catch
    (await baseRate <- getBaseRate in
     call fields <- computeTotals req_body baseRate in
     let payload := order_payload now req_body baseRate fields in
     await affectedRows <- pool_query (Sql.update_order id payload) in
     if (affectedRows =? 0)%N
     then resolve {| status := 404; json := BError "Not found" |}
     else resolve {| status := 200; json := BOrder id payload |})
    (fun message => resolve {| status := 500; json := BError message |}).

(** [DELETE /api/orders/:id] (index.js, lines 260-268). *)
Definition delete_order (id : N) : Async response :=
  try_catch
    (await affectedRows <- pool_query (Sql.delete_order id) in
     if (affectedRows =? 0)%N
     then resolve {| status := 404; json := BError "Not found" |}
     else resolve {| status := 200; json := BDeleted |})
    (fun message => resolve {| status := 500; json := BError message |}).

(** A destructuring default, [{ v = d }]: [d] stands in for [undefined] only. *)
Definition or_default (v d : value) : value :=
  match v with
  | VUndefined => d
  | _ => v
  end.

(** [GET /api/stats/summary] (index.js, lines 76-140); [query_date] is
    [req.query.date]. *)
Definition get_summary `{Sql.Engine} (now : string) (query_date : option string) : Async response :=
  try_catch
    (let today :=
       match query_date with
       | Some d => if String.eqb d "" then now else d
       | None => now
       end in
     let year := Utf16.slice 0 4 today in
     let month := Utf16.slice 5 7 today in

     await settings_rows <- pool_query Sql.select_settings in
     let first := hd_error settings_rows in
     let rate := or_default (from_option exchange_rate VUndefined first) (VNum 0) in
     let updated_at := or_default (from_option updated_at VUndefined first) VNull in

     let on_today r := Sql.equals (order_date r) (VStr today) in
     let in_month r :=
       Sql.equals (Sql.YEAR (order_date r)) (VStr year)
       && Sql.equals (Sql.MONTH (order_date r)) (VStr month) in
     let paid r := Sql.equals (payment_status r) (VStr "Paid") in
     let unpaid r := Sql.equals (payment_status r) (VStr "Unpaid") in
     let all (r : order_row) := true in
     let queries :=
       [ pool_query (Sql.select_sum (fun r => total_lak (fields r)) on_today);
         pool_query (Sql.select_sum (fun r => net_profit_lak (fields r)) on_today);
         pool_query (Sql.select_sum (fun r => rate_profit_lak (fields r)) on_today);
         pool_query (Sql.select_count on_today);
         pool_query (Sql.select_sum (fun r => total_lak (fields r)) in_month);
         pool_query (Sql.select_sum (fun r => net_profit_lak (fields r)) in_month);
         pool_query (Sql.select_count paid);
         pool_query (Sql.select_count unpaid);
         pool_query (Sql.select_count all);
         pool_query (Sql.select_sum (fun r => total_lak (fields r)) unpaid);
         pool_query (Sql.select_sum (fun r => total_lak (fields r)) all) ] in

     await results <- Promise_all queries in
     let column i := or_default (default VUndefined (results !! i)) (VNum 0) in
     let today_total_lak := column 0%nat in
     let today_profit_total := column 1%nat in
     let today_rate_profit := column 2%nat in
     let today_orders_count := column 3%nat in
     let month_total_lak := column 4%nat in
     let month_profit_total := column 5%nat in
     let paid_orders_count := column 6%nat in
     let unpaid_orders_count := column 7%nat in
     let all_orders_count := column 8%nat in
     let unpaid_value_lak := column 9%nat in
     let gross_value_lak := column 10%nat in

     call t_total_lak <- Number (js_or today_total_lak (VNum 0)) in
     call t_profit_total <- Number (js_or today_profit_total (VNum 0)) in
     call t_rate_profit <- Number (js_or today_rate_profit (VNum 0)) in
     call t_other_profit_l <- Number (js_or today_profit_total (VNum 0)) in
     call t_other_profit_r <- Number (js_or today_rate_profit (VNum 0)) in
     call t_orders_count <- Number (js_or today_orders_count (VNum 0)) in
     call m_total_lak <- Number (js_or month_total_lak (VNum 0)) in
     call m_profit_total <- Number (js_or month_profit_total (VNum 0)) in
     call p_paid_orders <- Number (js_or paid_orders_count (VNum 0)) in
     call p_unpaid_orders <- Number (js_or unpaid_orders_count (VNum 0)) in
     call p_unpaid_value_lak <- Number (js_or unpaid_value_lak (VNum 0)) in
     call s_gross_value_lak <- Number (js_or gross_value_lak (VNum 0)) in
     call s_all_orders_count <- Number (js_or all_orders_count (VNum 0)) in

     resolve
       {| status := 200;
          json := BSummary
            {| Summary.date := today;
               Summary.rate := rate;
               Summary.rate_updated := updated_at;
               Summary.today :=
                 {| Today.total_lak := t_total_lak;
                    Today.profit_total := t_profit_total;
                    Today.rate_profit := t_rate_profit;
                    Today.other_profit := (t_other_profit_l - t_other_profit_r)%float;
                    Today.orders_count := t_orders_count |};
               Summary.month :=
                 {| Month.total_lak := m_total_lak;
                    Month.profit_total := m_profit_total;
                    Month.period := year ++ "-" ++ month |};
               Summary.payments :=
                 {| Payments.paid_orders := p_paid_orders;
                    Payments.unpaid_orders := p_unpaid_orders;
                    Payments.unpaid_value_lak := p_unpaid_value_lak |};
               Summary.gross_value_lak := s_gross_value_lak;
               Summary.all_orders_count := s_all_orders_count |} |})
    (fun message => resolve {| status := 500; json := BError message |}).

(** [GET /api/orders/:id] (index.js, lines 155-163). *)
Definition get_order (id : N) : Async response :=
  try_catch
    (await rows <- pool_query (Sql.select_order id) in
     match rows with
     | [] => resolve {| status := 404; json := BError "Not found" |}
     | row :: _ => resolve {| status := 200; json := BOrder id row |}
     end)
    (fun message => resolve {| status := 500; json := BError message |}).

(** [POST /api/orders] (index.js, lines 165-210); [insertId] is the id the
    table's counter gives the new row. *)
Definition post_order (now : string) (insertId : N) (req_body : gmap string value)
    : Async response :=
  try_catch
    (await baseRate <- getBaseRate in
     call fields <- computeTotals req_body baseRate in
     let payload := order_payload now req_body baseRate fields in
     await result_insertId <- pool_query (Sql.insert_order insertId payload) in
     resolve {| status := 201; json := BOrder result_insertId payload |})
    (fun message => resolve {| status := 500; json := BError message |}).

(** [parseInt(s, 10)]: leading white space, a sign, then the digits up to the
    first character that is not one; [NaN] when there is no digit. *)
Definition parseInt10 (s : string) : float :=
  let l := codes s in
  let '(neg, l') := sign (strip ws_head (length l) l) in
  match digits 10%N 0%N 0%nat l' with
  | (v, S _, _) => Num.of_decimal neg v 0
  | (_, O, _) => nan
  end.

(** [Math.min(x, y)]: [NaN] when an argument is; else the lowest, starting
    from [+Infinity], with [-0] below [+0]. *)
Definition min_step (lowest number : float) : float :=
  if is_zero number && get_sign number && is_zero lowest && negb (get_sign lowest)
  then number
  else if (number <? lowest)%float then number else lowest.

Definition Math_min (x y : float) : float :=
  if is_nan x || is_nan y then nan
  else min_step (min_step infinity x) y.

(** What the listing answers with. *)
Inductive list_body : Type :=
  | LError (error : string)
  | LRows (rows : list Sql.order_line).

Record list_response : Type := ListResponse {
  list_status : N;
  list_json : list_body;
}.

(** A statement the database refuses rejects the query. *)
Definition settled {A} (r : outcome A) : Async A := fun w => (r, w).

(** [GET /api/orders] (index.js, lines 142-153); [query_limit] is
    [req.query.limit]. *)
Definition get_orders `{Sql.Listing} (query_limit : option string) : Async list_response :=
  try_catch
    (let limit :=
       Math_min
         (parseInt10
            match query_limit with
            | Some l => if String.eqb l "" then "50" else l
            | None => "50"
            end)
         200 in
     await result <- pool_query (Sql.select_recent limit) in
     await rows <- settled result in
     resolve {| list_status := 200; list_json := LRows rows |})
    (fun message => resolve {| list_status := 500; list_json := LError message |}).

(** ** Data to run the handlers on *)

(** The body of the worked scenario: 100 THB and 20 THB of shipping, charged
    at the rate 1350. *)
Definition scenario : gmap string value :=
  list_to_map
    [("price_thb", VNum 100); ("shipping_thb", VNum 20);
     ("service_fee_lak", VNum 5000); ("th_to_la_charge_lak", VNum 2000);
     ("actual_th_to_la_cost_lak", VNum 3000); ("customer_rate", VNum 1350)].

(** An engine to run the summary on: [=] as equality of strings, [YEAR] and
    [MONTH] as the digits of an ISO date. *)
Definition value_eqb (a b : value) : bool :=
  match a, b with
  | VStr x, VStr y => String.eqb x y
  | _, _ => false
  end.

Definition iso_part (from len : nat) (v : value) : value :=
  match v with
  | VStr d => VStr (substring from len d)
  | _ => VNull
  end.

Definition iso_engine : Sql.Engine :=
  {| Sql.equals := value_eqb; Sql.YEAR := iso_part 0 4; Sql.MONTH := iso_part 5 2 |}.

(** A row priced at the rate 1250, as an order created under that rate. *)
Definition created_row : order_row :=
  {| order_date := VStr "2024-03-05"; customer_name := VStr "Noy";
     product_link := VStr ""; payment_status := VStr "Unpaid";
     order_status := VStr "Pending"; tracking_no := VStr ""; carrier := VStr "";
     tracking_link := VStr ""; rate := 1250;
     fields :=
       {| price_thb := 100; shipping_thb := 20; customer_rate := 1350;
          service_fee_lak := 5000; th_to_la_charge_lak := 2000;
          actual_th_to_la_cost_lak := 3000; price_lak := 135000;
          shipping_lak := 27000; total_lak := 169000; rate_profit_lak := 12000;
          net_profit_lak := 16000 |} |}.

Definition sample_store : store :=
  {| settings := Some {| exchange_rate := VStr "1300.00"; updated_at := VNull |};
     orders := {[ 7%N := created_row ]} |}.

(** No query of the plan fails. *)
Definition healthy (fs : list (option string)) : bool :=
  forallb (fun f => match f with None => true | Some _ => false end) fs.

(** The base rate the tables hold: what [getBaseRate] reads. *)
Definition current_rate (st : store) : completion float :=
  match settings st with
  | Some r => Number (exchange_rate r)
  | None => Return zero
  end.

(** The row an order handler binds, when the body is priced. *)
Definition priced_row (now : string) (req_body : gmap string value) (st : store)
    : completion order_row :=
  let! baseRate := current_rate st in
  let! fields := computeTotals req_body baseRate in
  Return (order_payload now req_body baseRate fields).

(** The message of the first query of the plan that fails, if one does. *)
Fixpoint first_fault (fs : list (option string)) : option string :=
  match fs with
  | [] => None
  | Some e :: _ => Some e
  | None :: fs' => first_fault fs'
  end.

(** The six numbers of a priced order, as a body to submit again. *)
Definition priced_inputs (o : totals) : gmap string value :=
  list_to_map
    [("price_thb", VNum (price_thb o)); ("shipping_thb", VNum (shipping_thb o));
     ("service_fee_lak", VNum (service_fee_lak o));
     ("th_to_la_charge_lak", VNum (th_to_la_charge_lak o));
     ("actual_th_to_la_cost_lak", VNum (actual_th_to_la_cost_lak o));
     ("customer_rate", VNum (customer_rate o))].

(** A number that a field gives back as it is: not [NaN], which reads as 0,
    and not [-0], which reads as [+0]. *)
Definition reads_back (f : float) : bool :=
  negb (is_nan f) && negb (is_zero f && get_sign f).

(** The keys of the body the order handlers read: the numeric fields, and the
    text fields. *)
Definition text_fields : list string :=
  ["order_date"; "customer_name"; "product_link"; "payment_status"; "order_status";
   "tracking_no"; "carrier"; "tracking_link"].

Definition order_fields : list string := numeric_fields ++ text_fields.

(** An engine to list with: dates compared as strings. *)
Definition iso_listing : Sql.Listing :=
  {| Sql.date_compare a b :=
       match a, b with
       | VStr x, VStr y => String.compare x y
       | _, _ => Eq
       end;
     Sql.limit_error _ := "You have an error in your SQL syntax" |}.

(** * Properties *)

(** ** Facts of binary64 arithmetic

    The kernel's float operations are specified on [spec_float] (sign,
    mantissa, exponent); the facts the pricing properties need are read off
    that specification. *)

Module IeeeFacts.
Import Ieee.

Lemma SFcompare_refl x : x <> S754_nan -> SFcompare x x = Some Eq.
Proof.
  destruct x as [s|s| |s m e]; simpl; intros Hx; try congruence.
  - now destruct s.
  - rewrite Z.compare_refl, Pos.compare_cont_refl. now destruct s.
Qed.

Lemma SFeqb_refl x : x <> S754_nan -> SFeqb x x = true.
Proof. intros Hx. unfold SFeqb. now rewrite SFcompare_refl. Qed.

Lemma SFeqb_zero x y : sf_zero x = true -> sf_zero y = true -> SFeqb x y = true.
Proof. destruct x, y; simpl; intros; try discriminate; reflexivity. Qed.

Lemma SFeqb_eq x y :
  SFeqb x y = true -> sf_fin x = true -> x = y \/ (sf_zero x = true /\ sf_zero y = true).
Proof.
  unfold SFeqb. intros He Hf.
  destruct x as [sx|sx| |sx mx ex]; try discriminate Hf;
    destruct y as [sy|sy| |sy my ey]; simpl in He; try discriminate He; auto.
  1-4: destruct sx, sy; discriminate He.
  destruct sx, sy; try discriminate He;
      destruct (Z.compare_spec ex ey) as [->| |]; try discriminate He;
      destruct (Pos.compare_cont Eq mx my) eqn:E; try discriminate He;
      apply Pos.compare_eq in E; subst; auto.
Qed.

Lemma SFsub_diag x : sf_fin x = true -> SF64sub x x = S754_zero false.
Proof.
  destruct x as [s|s| |s m e]; simpl; try discriminate; intros _.
  - now destruct s.
  - now rewrite Z.sub_diag.
Qed.

Lemma SFsub_zero x y :
  sf_zero x = true -> sf_zero y = true -> sf_zero (SF64sub x y) = true.
Proof. destruct x as [[]| | |], y as [[]| | |]; simpl; congruence. Qed.

Lemma SFmul_zero_r x y :
  sf_fin x = true -> sf_zero y = true -> sf_zero (SF64mul x y) = true.
Proof. destruct x, y; simpl; congruence. Qed.

Lemma SFadd_zero x y :
  sf_zero x = true -> sf_zero y = true -> sf_zero (SF64add x y) = true.
Proof. destruct x as [[]| | |], y as [[]| | |]; simpl; congruence. Qed.

Lemma SFadd_zero_l z a : sf_zero z = true -> sf_same (SF64add z a) a.
Proof.
  destruct z as [sz| | |]; simpl; try discriminate; intros _.
  destruct a as [sa|sa| |sa ma ea]; simpl; try (now left).
  right. destruct sz, sa; auto.
Qed.

Lemma SFsub_same_r t b b' : sf_same b b' -> sf_same (SF64sub t b) (SF64sub t b').
Proof.
  intros [->|[Hb Hb']]; [now left|].
  destruct b as [sb| | |]; try discriminate.
  destruct b' as [sb'| | |]; try discriminate.
  destruct t as [st|st| |st mt et]; simpl; try (now left).
  right. destruct st, sb, sb'; auto.
Qed.

(** The classes of a float, as its specification shows them. *)

Lemma Prim2SF_zero : Prim2SF zero = S754_zero false.
Proof. reflexivity. Qed.

Lemma Prim2SF_infinity : Prim2SF infinity = S754_infinity false.
Proof. reflexivity. Qed.

Lemma is_nan_spec f : is_nan f = match Prim2SF f with S754_nan => true | _ => false end.
Proof.
  unfold is_nan. rewrite FloatAxioms.eqb_spec.
  destruct (Prim2SF f) eqn:E; try reflexivity; now rewrite SFeqb_refl.
Qed.

Lemma is_zero_spec f : is_zero f = sf_zero (Prim2SF f).
Proof.
  unfold is_zero. rewrite FloatAxioms.eqb_spec, Prim2SF_zero.
  destruct (Prim2SF f) as [s|s| |s m e]; try reflexivity; now destruct s.
Qed.

Lemma is_finite_spec f : is_finite f = sf_fin (Prim2SF f).
Proof.
  unfold is_finite. rewrite is_nan_spec. unfold is_infinity.
  rewrite FloatAxioms.eqb_spec, abs_spec, Prim2SF_infinity.
  now destruct (Prim2SF f) as [s|[]| |s m e].
Qed.

Lemma SameValueZero_spec x y :
  sf_same (Prim2SF x) (Prim2SF y) -> SameValueZero x y = true.
Proof.
  unfold SameValueZero. rewrite FloatAxioms.eqb_spec, !is_nan_spec.
  intros [->|[Hx Hy]].
  - destruct (Prim2SF y) eqn:E; try (rewrite SFeqb_refl; [reflexivity|congruence]).
    reflexivity.
  - now rewrite SFeqb_zero.
Qed.

(** [x - y] is a zero when [x == y] and both are finite. *)
Lemma sub_eq_zero x y :
  (x =? y)%float = true -> is_finite y = true -> is_zero (x - y) = true.
Proof.
  rewrite FloatAxioms.eqb_spec, is_finite_spec, is_zero_spec, sub_spec. intros He Hy.
  assert (Hx : sf_fin (Prim2SF x) = true).
  { destruct (Prim2SF x) as [|[]| |], (Prim2SF y); try discriminate; reflexivity. }
  destruct (SFeqb_eq _ _ He Hx) as [->|[Zx Zy]].
  - now rewrite SFsub_diag.
  - now apply SFsub_zero.
Qed.

(** A finite number times a zero is a zero. *)
Lemma mul_zero_r x y :
  is_finite x = true -> is_zero y = true -> is_zero (x * y) = true.
Proof.
  rewrite is_finite_spec, !is_zero_spec, mul_spec. apply SFmul_zero_r.
Qed.

Lemma add_zero x y :
  is_zero x = true -> is_zero y = true -> is_zero (x + y) = true.
Proof. rewrite !is_zero_spec, add_spec. apply SFadd_zero. Qed.

(** Subtracting [z + a] for a zero [z] is subtracting [a]. *)
Lemma sub_add_zero t z a :
  is_zero z = true -> SameValueZero (t - (z + a)) (t - a) = true.
Proof.
  rewrite is_zero_spec. intros Hz.
  apply SameValueZero_spec. rewrite !sub_spec, add_spec.
  apply SFsub_same_r, SFadd_zero_l, Hz.
Qed.

Lemma sub_zero_zero x y :
  is_zero x = true -> is_zero y = true -> is_zero (x - y) = true.
Proof. rewrite !is_zero_spec, sub_spec. apply SFsub_zero. Qed.

(** A sum is finite only if both terms are. *)
Lemma add_finite_inv x y :
  is_finite (x + y) = true -> is_finite x = true /\ is_finite y = true.
Proof.
  rewrite !is_finite_spec, add_spec.
  destruct (Prim2SF x) as [|[]| |], (Prim2SF y) as [|[]| |]; simpl; auto.
Qed.

(** [x == x], unless [x] is [NaN]. *)
Lemma eqb_refl_not_nan x : is_nan x = false -> (x =? x)%float = true.
Proof. unfold is_nan. now destruct (x =? x)%float. Qed.

Lemma eqb_refl_is_nan x : (x =? x)%float = negb (is_nan x).
Proof. unfold is_nan. now rewrite negb_involutive. Qed.

(** [NaN] spreads through sums, differences and products. *)
Lemma nan_add_l x y : is_nan x = true -> is_nan (x + y) = true.
Proof.
  rewrite !is_nan_spec, add_spec. now destruct (Prim2SF x); try discriminate.
Qed.

Lemma nan_add_r x y : is_nan y = true -> is_nan (x + y) = true.
Proof.
  rewrite !is_nan_spec, add_spec.
  destruct (Prim2SF y); try discriminate. now destruct (Prim2SF x).
Qed.

Lemma nan_sub_l x y : is_nan x = true -> is_nan (x - y) = true.
Proof.
  rewrite !is_nan_spec, sub_spec. now destruct (Prim2SF x); try discriminate.
Qed.

Lemma nan_sub_r x y : is_nan y = true -> is_nan (x - y) = true.
Proof.
  rewrite !is_nan_spec, sub_spec.
  destruct (Prim2SF y); try discriminate. now destruct (Prim2SF x).
Qed.

Lemma nan_mul_l x y : is_nan x = true -> is_nan (x * y) = true.
Proof.
  rewrite !is_nan_spec, mul_spec. now destruct (Prim2SF x); try discriminate.
Qed.

Lemma nan_mul_r x y : is_nan y = true -> is_nan (x * y) = true.
Proof.
  rewrite !is_nan_spec, mul_spec.
  destruct (Prim2SF y); try discriminate. now destruct (Prim2SF x).
Qed.

(** [x - y] is [NaN] when [x == y] and they are not finite: both are the same
    infinity. *)
Lemma sub_eq_nan x y :
  (x =? y)%float = true -> is_finite y = false -> is_nan (x - y) = true.
Proof.
  rewrite FloatAxioms.eqb_spec, is_finite_spec, is_nan_spec, sub_spec.
  destruct (Prim2SF x) as [[]|[]| |[] mx ex], (Prim2SF y) as [[]|[]| |[] my ey];
    simpl; intros; try discriminate; reflexivity.
Qed.

(** What is not finite, times a zero, is [NaN]. *)
Lemma mul_zero_nan x y :
  is_finite x = false -> is_zero y = true -> is_nan (x * y) = true.
Proof.
  rewrite is_finite_spec, is_zero_spec, is_nan_spec, mul_spec.
  destruct (Prim2SF x), (Prim2SF y); simpl; intros; try discriminate; reflexivity.
Qed.

Lemma SameValueZero_nan x y :
  is_nan x = true -> is_nan y = true -> SameValueZero x y = true.
Proof. unfold SameValueZero. intros -> ->. apply orb_true_r. Qed.

End IeeeFacts.

Import Ieee IeeeFacts.

(** ** Coercions *)

Lemma js_or_falsy a d : ToBoolean a = false -> js_or a d = d.
Proof. unfold js_or. now intros ->. Qed.

Lemma get_insert_eq k v (o : gmap string value) : get k (<[k := v]> o) = v.
Proof. unfold get. now rewrite lookup_insert_eq. Qed.

Lemma get_insert_ne k k' v (o : gmap string value) :
  k <> k' -> get k' (<[k := v]> o) = get k' o.
Proof. intros Hk. unfold get. now rewrite lookup_insert_ne. Qed.

(** Only objects and arrays can fail to convert, and they are truthy. *)
Lemma falsy_converts v : ToBoolean v = false -> ToPrimitive_throws v = false.
Proof. destruct v; simpl; intros; try reflexivity; discriminate. Qed.

(** [Number(v || d)] for a number [d]: it throws when [v] does. *)
Lemma Number_js_or v d :
  Number (js_or v (VNum d))
  = if ToPrimitive_throws v
    then Throw "Cannot convert object to primitive value"
    else Return (ToNumber (js_or v (VNum d))).
Proof.
  unfold js_or. destruct (ToBoolean v) eqn:Hv; [reflexivity|].
  now rewrite (falsy_converts v Hv).
Qed.

(** ** The pricing function *)

(** What [computeTotals] returns, when it returns: the six numbers read, and
    the five derived from them. *)
Lemma computeTotals_Return payload baseRate o :
  computeTotals payload baseRate = Return o ->
  coercible payload = true /\
  price_thb o = ToNumber (js_or (get "price_thb" payload) (VNum 0)) /\
  shipping_thb o = ToNumber (js_or (get "shipping_thb" payload) (VNum 0)) /\
  service_fee_lak o = ToNumber (js_or (get "service_fee_lak" payload) (VNum 0)) /\
  th_to_la_charge_lak o = ToNumber (js_or (get "th_to_la_charge_lak" payload) (VNum 0)) /\
  actual_th_to_la_cost_lak o
  = ToNumber (js_or (get "actual_th_to_la_cost_lak" payload) (VNum 0)) /\
  customer_rate o = ToNumber (js_or (get "customer_rate" payload) (VNum baseRate)) /\
  price_lak o = (price_thb o * customer_rate o)%float /\
  shipping_lak o = (shipping_thb o * customer_rate o)%float /\
  total_lak o
  = (price_lak o + shipping_lak o + service_fee_lak o + th_to_la_charge_lak o)%float /\
  rate_profit_lak o = ((price_thb o + shipping_thb o) * (customer_rate o - baseRate))%float /\
  net_profit_lak o
  = (total_lak o
     - (price_thb o * baseRate + shipping_thb o * baseRate + actual_th_to_la_cost_lak o))%float.
Proof.
  unfold computeTotals, coercible, numeric_fields. rewrite !Number_js_or. simpl.
  destruct (ToPrimitive_throws (get "price_thb" payload)); [discriminate|].
  destruct (ToPrimitive_throws (get "shipping_thb" payload)); [discriminate|].
  destruct (ToPrimitive_throws (get "service_fee_lak" payload)); [discriminate|].
  destruct (ToPrimitive_throws (get "th_to_la_charge_lak" payload)); [discriminate|].
  destruct (ToPrimitive_throws (get "actual_th_to_la_cost_lak" payload)); [discriminate|].
  destruct (ToPrimitive_throws (get "customer_rate" payload)); [discriminate|].
  simpl. intros [= <-]. repeat split.
Qed.

(** [computeTotals] throws exactly when a numeric field cannot be converted. *)
Lemma computeTotals_returns payload baseRate :
  is_Return (computeTotals payload baseRate) = coercible payload.
Proof.
  unfold computeTotals, coercible, numeric_fields. rewrite !Number_js_or. simpl.
  destruct (ToPrimitive_throws (get "price_thb" payload)); [reflexivity|].
  destruct (ToPrimitive_throws (get "shipping_thb" payload)); [reflexivity|].
  destruct (ToPrimitive_throws (get "service_fee_lak" payload)); [reflexivity|].
  destruct (ToPrimitive_throws (get "th_to_la_charge_lak" payload)); [reflexivity|].
  destruct (ToPrimitive_throws (get "actual_th_to_la_cost_lak" payload)); [reflexivity|].
  destruct (ToPrimitive_throws (get "customer_rate" payload)); reflexivity.
Qed.

Lemma computeTotals_Throw payload baseRate e :
  computeTotals payload baseRate = Throw e -> coercible payload = false.
Proof. intros H. rewrite <- (computeTotals_returns payload baseRate), H. reflexivity. Qed.

(** C1. On [price_thb=100, shipping_thb=20, service_fee_lak=5000,
    th_to_la_charge_lak=2000, actual_th_to_la_cost_lak=3000,
    customer_rate=1350] and the base rate 1300, [computeTotals] returns
    [price_lak=135000], [shipping_lak=27000], [total_lak=169000],
    [rate_profit_lak=6000] and [net_profit_lak=10000]. *)
Theorem computeTotals_scenario :
  computeTotals scenario 1300
  = Return
      {| price_thb := 100; shipping_thb := 20; customer_rate := 1350;
         service_fee_lak := 5000; th_to_la_charge_lak := 2000;
         actual_th_to_la_cost_lak := 3000;
         price_lak := 135000; shipping_lak := 27000; total_lak := 169000;
         rate_profit_lak := 6000; net_profit_lak := 10000 |}.
Proof. vm_compute. reflexivity. Qed.

(** C2, as stated, fails. A field that is a non-numeric string is not treated
    as 0: with [price_thb = "abc"] the derived fields are [NaN], while with
    [price_thb = 0] they are numbers. And a field that is an object with a
    member [toString] makes the function throw a [TypeError]. *)
Lemma computeTotals_non_numeric :
  computeTotals (<["price_thb" := VStr "abc"]> scenario) 1300
  = Return
      {| price_thb := nan; shipping_thb := 20; customer_rate := 1350;
         service_fee_lak := 5000; th_to_la_charge_lak := 2000;
         actual_th_to_la_cost_lak := 3000;
         price_lak := nan; shipping_lak := 27000; total_lak := nan;
         rate_profit_lak := nan; net_profit_lak := nan |} /\
  computeTotals (<["price_thb" := VNum 0]> scenario) 1300
  = Return
      {| price_thb := 0; shipping_thb := 20; customer_rate := 1350;
         service_fee_lak := 5000; th_to_la_charge_lak := 2000;
         actual_th_to_la_cost_lak := 3000;
         price_lak := 0; shipping_lak := 27000; total_lak := 34000;
         rate_profit_lak := 1000; net_profit_lak := 5000 |} /\
  computeTotals (<["price_thb" := VObj [("toString", VNull)]]> scenario) 1300
  = Throw "Cannot convert object to primitive value".
Proof. vm_compute. repeat split. Qed.

(** C2, amended. A numeric field that is missing, or holds a falsy value
    ([undefined], [null], [false], [0], [NaN] or the empty string), is read as
    if it were set to 0: the result is the same. A truthy value is not
    replaced by 0: each of the five amounts is read as [Number] of the value,
    whatever number that is, and an input read as [NaN] makes [NaN] of every
    derived field computed from it. The function throws exactly when a
    numeric field holds an object or array that cannot be converted to a
    primitive; otherwise it returns. *)
Theorem computeTotals_falsy_as_zero (payload : gmap string value) (baseRate : float) :
  let read k :=
    let v := get k payload in if ToBoolean v then ToNumber v else 0%float in
  (forall k, k ∈ numeric_fields -> ToBoolean (get k payload) = false ->
     computeTotals payload baseRate = computeTotals (<[k := VNum 0]> payload) baseRate) /\
  is_Return (computeTotals payload baseRate) = coercible payload /\
  forall o, computeTotals payload baseRate = Return o ->
    (price_thb o = read "price_thb" /\
     shipping_thb o = read "shipping_thb" /\
     service_fee_lak o = read "service_fee_lak" /\
     th_to_la_charge_lak o = read "th_to_la_charge_lak" /\
     actual_th_to_la_cost_lak o = read "actual_th_to_la_cost_lak") /\
    (is_nan (price_thb o) = true ->
     is_nan (price_lak o) = true /\ is_nan (total_lak o) = true /\
     is_nan (rate_profit_lak o) = true /\ is_nan (net_profit_lak o) = true) /\
    (is_nan (shipping_thb o) = true ->
     is_nan (shipping_lak o) = true /\ is_nan (total_lak o) = true /\
     is_nan (rate_profit_lak o) = true /\ is_nan (net_profit_lak o) = true) /\
    (is_nan (service_fee_lak o) = true ->
     is_nan (total_lak o) = true /\ is_nan (net_profit_lak o) = true) /\
    (is_nan (th_to_la_charge_lak o) = true ->
     is_nan (total_lak o) = true /\ is_nan (net_profit_lak o) = true) /\
    (is_nan (actual_th_to_la_cost_lak o) = true -> is_nan (net_profit_lak o) = true).
Proof.
  intros read. split; [|split; [apply computeTotals_returns|]].
  - intros k Hk Hf. unfold numeric_fields in Hk.
    repeat (apply elem_of_cons in Hk as [->|Hk]); [..|now apply elem_of_nil in Hk];
      unfold computeTotals;
      rewrite get_insert_eq, !get_insert_ne by discriminate;
      rewrite (js_or_falsy _ _ Hf); reflexivity.
  - intros o Ho.
    destruct (computeTotals_Return _ _ _ Ho)
      as (_ & Hp & Hs & Hf & Hc & Ha & _ & Hpl & Hsl & Ht & Hrp & Hnp).
    assert (Hread : forall k, ToNumber (js_or (get k payload) (VNum 0)) = read k).
    { intros k. unfold read, js_or. now destruct (ToBoolean (get k payload)). }
    rewrite Hread in Hp, Hs, Hf, Hc, Ha.
    split; [auto|].
    rewrite Hnp, Hrp, Ht, Hpl, Hsl.
    repeat (split || intro);
      auto 8 using nan_add_l, nan_add_r, nan_sub_l, nan_sub_r, nan_mul_l, nan_mul_r.
Qed.

(** The scenario with [shipping_thb: null] is priced as with
    [shipping_thb: 0]. *)
Lemma computeTotals_falsy_as_zero_witness :
  "shipping_thb" ∈ numeric_fields /\
  ToBoolean (get "shipping_thb" (<["shipping_thb" := VNull]> scenario)) = false /\
  computeTotals (<["shipping_thb" := VNull]> scenario) 1300
  = computeTotals (<["shipping_thb" := VNum 0]> (<["shipping_thb" := VNull]> scenario)) 1300.
Proof.
  assert (Hk : "shipping_thb" ∈ numeric_fields) by (unfold numeric_fields; set_solver).
  assert (Hf : ToBoolean (get "shipping_thb" (<["shipping_thb" := VNull]> scenario)) = false)
    by (vm_compute; reflexivity).
  pose proof (computeTotals_falsy_as_zero (<["shipping_thb" := VNull]> scenario) 1300)
    as [H _].
  exact (conj Hk (conj Hf (H _ Hk Hf))).
Defined.

(** C3, as stated, fails: the total does not compare equal to the sum when
    it is [NaN], which it is for [price_thb = "abc"], and for the fees
    [1e999] and [-1e999], read as [Infinity] and [-Infinity]. *)
Lemma computeTotals_additivity_nan :
  (exists o,
     computeTotals (<["price_thb" := VStr "abc"]> scenario) 1300 = Return o /\
     (total_lak o
      =? price_lak o + shipping_lak o + service_fee_lak o + th_to_la_charge_lak o)%float
     = false) /\
  (exists o,
     computeTotals
       (<["service_fee_lak" := VNum infinity]>
          (<["th_to_la_charge_lak" := VNum neg_infinity]> scenario)) 1300 = Return o /\
     (total_lak o
      =? price_lak o + shipping_lak o + service_fee_lak o + th_to_la_charge_lak o)%float
     = false).
Proof. split; eexists; (split; [vm_compute; reflexivity|]); vm_compute; reflexivity. Qed.

(** C3, amended. For every input and base rate, what [computeTotals] returns
    has [total_lak] the very same double as
    [price_lak + shipping_lak + service_fee_lak + th_to_la_charge_lak], summed
    from the left, where the two prices are the THB amounts times the
    customer rate and the fees are the numbers read from the body; the two
    compare equal under [==] exactly when the total is not [NaN]. It returns
    for every body whose numeric fields convert. *)
Theorem computeTotals_additivity (payload : gmap string value) (baseRate : float) :
  let num k d := ToNumber (js_or (get k payload) (VNum d)) in
  match computeTotals payload baseRate with
  | Return o =>
      let sum :=
        (price_lak o + shipping_lak o + service_fee_lak o + th_to_la_charge_lak o)%float in
      price_lak o = (num "price_thb" 0 * num "customer_rate" baseRate)%float /\
      shipping_lak o = (num "shipping_thb" 0 * num "customer_rate" baseRate)%float /\
      service_fee_lak o = num "service_fee_lak" 0%float /\
      th_to_la_charge_lak o = num "th_to_la_charge_lak" 0%float /\
      total_lak o = sum /\
      (total_lak o =? sum)%float = negb (is_nan (total_lak o))
  | Throw _ => coercible payload = false
  end.
Proof.
  intros num.
  destruct (computeTotals payload baseRate) as [o|e] eqn:E;
    [|apply (computeTotals_Throw _ _ _ E)].
  destruct (computeTotals_Return _ _ _ E)
    as (_ & Hp & Hs & Hf & Hc & _ & Hr & Hpl & Hsl & Ht & _).
  cbv zeta. rewrite <- Ht, eqb_refl_is_nan. unfold num.
  repeat split; congruence.
Qed.

(** C4, as stated, fails: the profit does not compare equal to the
    difference when it is [NaN], which it is for [price_thb = "abc"], and for
    [price_thb = 1e999], read as [Infinity]: total and cost are both
    [Infinity]. *)
Lemma computeTotals_profit_nan :
  (exists o,
     computeTotals (<["price_thb" := VStr "abc"]> scenario) 1300 = Return o /\
     (net_profit_lak o
      =? total_lak o
         - (price_thb o * 1300 + shipping_thb o * 1300 + actual_th_to_la_cost_lak o))%float
     = false) /\
  (exists o,
     computeTotals (<["price_thb" := VNum infinity]> scenario) 1300 = Return o /\
     (net_profit_lak o
      =? total_lak o
         - (price_thb o * 1300 + shipping_thb o * 1300 + actual_th_to_la_cost_lak o))%float
     = false).
Proof. split; eexists; (split; [vm_compute; reflexivity|]); vm_compute; reflexivity. Qed.

(** C4, amended. For every input and base rate, what [computeTotals] returns
    has [net_profit_lak] the very same double as [total_lak - (price_thb *
    baseRate + shipping_thb * baseRate + actual_th_to_la_cost_lak)], where the
    three amounts are the numbers read from the body and the total is the one
    charged to the customer; the two compare equal under [==] exactly when
    the profit is not [NaN]. It returns for every body whose numeric fields
    convert. *)
Theorem computeTotals_profit_decomposition (payload : gmap string value) (baseRate : float) :
  let num k d := ToNumber (js_or (get k payload) (VNum d)) in
  match computeTotals payload baseRate with
  | Return o =>
      let rest :=
        (total_lak o
         - (price_thb o * baseRate + shipping_thb o * baseRate
            + actual_th_to_la_cost_lak o))%float in
      price_thb o = num "price_thb" 0%float /\
      shipping_thb o = num "shipping_thb" 0%float /\
      actual_th_to_la_cost_lak o = num "actual_th_to_la_cost_lak" 0%float /\
      total_lak o
      = (price_thb o * num "customer_rate" baseRate
         + shipping_thb o * num "customer_rate" baseRate
         + num "service_fee_lak" 0 + num "th_to_la_charge_lak" 0)%float /\
      net_profit_lak o = rest /\
      (net_profit_lak o =? rest)%float = negb (is_nan (net_profit_lak o))
  | Throw _ => coercible payload = false
  end.
Proof.
  intros num.
  destruct (computeTotals payload baseRate) as [o|e] eqn:E;
    [|apply (computeTotals_Throw _ _ _ E)].
  destruct (computeTotals_Return _ _ _ E)
    as (_ & Hp & Hs & Hf & Hc & Ha & Hr & Hpl & Hsl & Ht & _ & Hn).
  cbv zeta. rewrite <- Hn, eqb_refl_is_nan. unfold num.
  repeat split; congruence.
Qed.

(** C5, as stated, fails: with [customer_rate] equal to the base rate, the
    spread profit is [NaN], not 0, as soon as the THB amounts do not add up to
    a finite number: [price_thb] and [shipping_thb] both [2^1023] (a finite
    double, about 8.99e307) add up to [Infinity], and [Infinity * 0] is [NaN];
    [price_thb = "abc"] gives [NaN] as well. *)
Lemma computeTotals_spread_nan :
  (exists o,
     computeTotals
       (<["price_thb" := VNum 0x1p+1023]> (<["shipping_thb" := VNum 0x1p+1023]>
          (<["customer_rate" := VNum 1300]> scenario))) 1300 = Return o /\
     (customer_rate o =? 1300)%float = true /\
     (rate_profit_lak o =? 0)%float = false /\ is_nan (rate_profit_lak o) = true) /\
  (exists o,
     computeTotals
       (<["price_thb" := VStr "abc"]> (<["customer_rate" := VNum 1300]> scenario)) 1300
     = Return o /\
     (customer_rate o =? 1300)%float = true /\
     (rate_profit_lak o =? 0)%float = false /\ is_nan (rate_profit_lak o) = true).
Proof. split; eexists; (split; [vm_compute; reflexivity|]); vm_compute; repeat split. Qed.

(** C5, amended. When the customer rate used equals the base rate,
    [rate_profit_lak == 0] if the base rate is finite and the THB amounts
    (after coercion) add up to a finite number, whatever the other fields
    are; and [rate_profit_lak] is [NaN] if not. *)
Theorem computeTotals_spread_isolation (payload : gmap string value) (baseRate : float)
    (o : totals) :
  computeTotals payload baseRate = Return o ->
  (customer_rate o =? baseRate)%float = true ->
  if is_finite baseRate && is_finite (price_thb o + shipping_thb o)
  then (rate_profit_lak o =? 0)%float = true
  else is_nan (rate_profit_lak o) = true.
Proof.
  intros Ho Hr.
  destruct (computeTotals_Return _ _ _ Ho) as (_ & _ & _ & _ & _ & _ & _ & _ & _ & _ & -> & _).
  destruct (is_finite baseRate) eqn:Hb; cbn [andb].
  - destruct (is_finite (price_thb o + shipping_thb o)) eqn:Hs.
    + apply (mul_zero_r _ _ Hs). now apply sub_eq_zero.
    + apply (mul_zero_nan _ _ Hs). now apply sub_eq_zero.
  - apply nan_mul_r. now apply sub_eq_nan.
Qed.

(** The scenario with [customer_rate: "1300.0"] at the base rate 1300 has no
    spread profit. *)
Lemma computeTotals_spread_isolation_witness :
  exists o,
    computeTotals (<["customer_rate" := VStr "1300.0"]> scenario) 1300 = Return o /\
    (customer_rate o =? 1300)%float = true /\
    is_finite 1300 = true /\
    is_finite (price_thb o + shipping_thb o) = true /\
    (rate_profit_lak o =? 0)%float = true.
Proof.
  eexists.
  assert (Ho : computeTotals (<["customer_rate" := VStr "1300.0"]> scenario) 1300
               = Return _) by (vm_compute; reflexivity).
  pose proof (computeTotals_spread_isolation
                (<["customer_rate" := VStr "1300.0"]> scenario) 1300 _ Ho eq_refl) as H.
  exact (conj Ho (conj eq_refl (conj eq_refl (conj eq_refl H)))).
Defined.

(** C6, as stated, fails: with the base rate 0 and no [customer_rate], a THB
    amount that is not finite gives [NaN], not 0: [price_thb = 1e999] is read
    by the JSON parser as [Infinity], and [price_thb = "abc"] is coerced to
    [NaN]. *)
Lemma computeTotals_zero_rate_nan :
  (exists o,
     computeTotals {[ "price_thb" := VNum infinity ]} 0 = Return o /\
     (price_lak o =? 0)%float = false /\ (rate_profit_lak o =? 0)%float = false) /\
  (exists o,
     computeTotals {[ "price_thb" := VStr "abc" ]} 0 = Return o /\
     (price_lak o =? 0)%float = false /\ (rate_profit_lak o =? 0)%float = false).
Proof. split; eexists; (split; [vm_compute; reflexivity|]); vm_compute; repeat split. Qed.

(** C6, amended. With [customer_rate] unset and the base rate 0:
    [price_lak == 0] if [price_thb] (after coercion) is finite, and it is
    [NaN] if not; [shipping_lak] likewise, by [shipping_thb];
    [rate_profit_lak == 0] if the two THB amounts add up to a finite number,
    and it is [NaN] if not; and [net_profit_lak] is in every case the same
    number as [total_lak - actual_th_to_la_cost_lak] (equal under [==], or
    [NaN] both). *)
Theorem computeTotals_zero_rate (payload : gmap string value) (baseRate : float)
    (o : totals) :
  computeTotals payload baseRate = Return o ->
  payload !! "customer_rate" = None ->
  (baseRate =? 0)%float = true ->
  (if is_finite (price_thb o)
   then (price_lak o =? 0)%float = true else is_nan (price_lak o) = true) /\
  (if is_finite (shipping_thb o)
   then (shipping_lak o =? 0)%float = true else is_nan (shipping_lak o) = true) /\
  (if is_finite (price_thb o + shipping_thb o)
   then (rate_profit_lak o =? 0)%float = true else is_nan (rate_profit_lak o) = true) /\
  SameValueZero (net_profit_lak o) (total_lak o - actual_th_to_la_cost_lak o) = true.
Proof.
  intros Ho Hc Hb.
  assert (Hz : is_zero baseRate = true) by exact Hb.
  destruct (computeTotals_Return _ _ _ Ho)
    as (_ & _ & _ & _ & _ & _ & Hr & Hpl & Hsl & Ht & Hrp & Hnp).
  assert (Hr' : customer_rate o = baseRate).
  { rewrite Hr. unfold get. now rewrite Hc. }
  rewrite Hr' in *. clear Hr Hr'.
  split; [|split; [|split]].
  - rewrite Hpl. destruct (is_finite (price_thb o)) eqn:Hp;
      [now apply mul_zero_r|now apply mul_zero_nan].
  - rewrite Hsl. destruct (is_finite (shipping_thb o)) eqn:Hs;
      [now apply mul_zero_r|now apply mul_zero_nan].
  - rewrite Hrp. destruct (is_finite (price_thb o + shipping_thb o)) eqn:Hs;
      [apply (mul_zero_r _ _ Hs)|apply (mul_zero_nan _ _ Hs)];
      now apply sub_zero_zero.
  - rewrite Hnp.
    destruct (is_finite (price_thb o)) eqn:Hp;
      [destruct (is_finite (shipping_thb o)) eqn:Hs|].
    + apply sub_add_zero, add_zero; now apply mul_zero_r.
    + assert (Hn : is_nan (total_lak o) = true).
      { rewrite Ht, Hsl. do 2 apply nan_add_l. apply nan_add_r.
        now apply mul_zero_nan. }
      apply SameValueZero_nan; now apply nan_sub_l.
    + assert (Hn : is_nan (total_lak o) = true).
      { rewrite Ht, Hpl. do 3 apply nan_add_l. now apply mul_zero_nan. }
      apply SameValueZero_nan; now apply nan_sub_l.
Qed.

(** A body without [customer_rate], priced at the base rate 0. *)
Lemma computeTotals_zero_rate_witness :
  exists o,
    computeTotals
      {[ "price_thb" := VNum 100; "service_fee_lak" := VNum 5000;
         "actual_th_to_la_cost_lak" := VNum 3000 ]} 0 = Return o /\
    (price_lak o =? 0)%float = true /\
    (shipping_lak o =? 0)%float = true /\
    (rate_profit_lak o =? 0)%float = true /\
    SameValueZero (net_profit_lak o) (total_lak o - actual_th_to_la_cost_lak o) = true.
Proof.
  eexists.
  assert (Ho : computeTotals
                 {[ "price_thb" := VNum 100; "service_fee_lak" := VNum 5000;
                    "actual_th_to_la_cost_lak" := VNum 3000 ]} 0
               = Return _) by (vm_compute; reflexivity).
  exact (conj Ho (computeTotals_zero_rate _ 0 _ Ho eq_refl eq_refl)).
Defined.

(** C7, as stated, fails: the base rate is used not only when [customer_rate]
    is omitted. A supplied [customer_rate] of 0 is not the rate used: the base
    rate is. *)
Lemma computeTotals_zero_customer_rate :
  (<["customer_rate" := VNum 0]> scenario) !! "customer_rate" = Some (VNum 0) /\
  computeTotals (<["customer_rate" := VNum 0]> scenario) 1300
  = Return
      {| price_thb := 100; shipping_thb := 20; customer_rate := 1300;
         service_fee_lak := 5000; th_to_la_charge_lak := 2000;
         actual_th_to_la_cost_lak := 3000;
         price_lak := 130000; shipping_lak := 26000; total_lak := 163000;
         rate_profit_lak := 0; net_profit_lak := 4000 |}.
Proof. vm_compute. repeat split. Qed.

(** C7, amended. The customer rate used is the number of the supplied
    [customer_rate] when that value is truthy, and the base rate when it is
    omitted or falsy ([null], [false], [0], [NaN], the empty string); the rate
    so chosen is the one the derived fields are computed with. *)
Theorem computeTotals_customer_rate (payload : gmap string value) (baseRate : float) :
  let supplied := get "customer_rate" payload in
  match computeTotals payload baseRate with
  | Return o =>
      customer_rate o = (if ToBoolean supplied then ToNumber supplied else baseRate) /\
      price_lak o = (price_thb o * customer_rate o)%float /\
      shipping_lak o = (shipping_thb o * customer_rate o)%float /\
      total_lak o
      = (price_thb o * customer_rate o + shipping_thb o * customer_rate o
         + service_fee_lak o + th_to_la_charge_lak o)%float /\
      rate_profit_lak o
      = ((price_thb o + shipping_thb o) * (customer_rate o - baseRate))%float
  | Throw _ => coercible payload = false
  end.
Proof.
  intros supplied.
  destruct (computeTotals payload baseRate) as [o|e] eqn:E;
    [|apply (computeTotals_Throw _ _ _ E)].
  destruct (computeTotals_Return _ _ _ E)
    as (_ & _ & _ & _ & _ & _ & Hr & Hpl & Hsl & Ht & Hrp & _).
  repeat split; try assumption.
  - rewrite Hr. unfold js_or. fold supplied. now destruct (ToBoolean supplied).
  - now rewrite Ht, Hpl, Hsl.
Qed.

(** ** The order handlers *)

Lemma healthy_tail fs : healthy fs = true -> healthy (tail fs) = true.
Proof. destruct fs as [|[e|] fs]; simpl; intros; auto; discriminate. Qed.

Lemma pool_query_healthy {A} (q : store -> A * store) st fs :
  healthy fs = true ->
  pool_query q {| db := st; faults := fs |}
  = (Resolved (q st).1, {| db := (q st).2; faults := tail fs |}).
Proof.
  unfold pool_query; simpl.
  destruct fs as [|[e|] fs]; simpl; try discriminate; intros _; now destruct (q st).
Qed.

Lemma getBaseRate_healthy st fs :
  healthy fs = true ->
  getBaseRate {| db := st; faults := fs |}
  = settle (current_rate st) {| db := st; faults := tail fs |}.
Proof.
  intros Hf. unfold getBaseRate, await_. rewrite pool_query_healthy by assumption.
  unfold current_rate; simpl. now destruct (settings st).
Qed.

(** What [PUT] does when its queries go through and the body is priced. *)
Lemma put_order_healthy now id req_body st fs baseRate derived :
  healthy fs = true ->
  current_rate st = Return baseRate ->
  computeTotals req_body baseRate = Return derived ->
  let row := order_payload now req_body baseRate derived in
  put_order now id req_body {| db := st; faults := fs |}
  = match orders st !! id with
    | Some _ =>
        (Resolved {| status := 200; json := BOrder id row |},
         {| db := {| settings := settings st; orders := <[id := row]> (orders st) |};
            faults := tail (tail fs) |})
    | None =>
        (Resolved {| status := 404; json := BError "Not found" |},
         {| db := st; faults := tail (tail fs) |})
    end.
Proof.
  intros Hf Hb Hd row. unfold put_order, try_catch, await_.
  rewrite getBaseRate_healthy, Hb by assumption. simpl. rewrite Hd. simpl.
  rewrite pool_query_healthy by now apply healthy_tail.
  unfold Sql.update_order. fold row. now destruct (orders st !! id).
Qed.

(** C8. An update of an existing order, when its queries go through and the
    body is priced, stores a row whose [rate] is the base rate the settings
    hold at that moment and whose other derived fields ([price_lak],
    [shipping_lak], [total_lak], [rate_profit_lak], [net_profit_lak]) are
    those [computeTotals] returns on the submitted body and that rate.
    Whatever the row held before, its creation-time rate included, the row
    stored is the same. *)
Theorem put_order_recomputes (now : string) (id : N) (req_body : gmap string value)
    (st : store) (fs : list (option string)) (old : order_row)
    (baseRate : float) (derived : totals) :
  orders st !! id = Some old ->
  healthy fs = true ->
  current_rate st = Return baseRate ->
  computeTotals req_body baseRate = Return derived ->
  let stored (s : store) (row : order_row) :=
    orders (db (put_order now id req_body {| db := s; faults := fs |}).2) !! id = Some row in
  exists row,
    stored st row /\
    rate row = baseRate /\
    price_lak (fields row) = price_lak derived /\
    shipping_lak (fields row) = shipping_lak derived /\
    total_lak (fields row) = total_lak derived /\
    rate_profit_lak (fields row) = rate_profit_lak derived /\
    net_profit_lak (fields row) = net_profit_lak derived /\
    forall old', stored {| settings := settings st; orders := <[id := old']> (orders st) |} row.
Proof.
  intros Ho Hf Hb Hd stored.
  exists (order_payload now req_body baseRate derived).
  split; [|repeat split].
  - unfold stored. rewrite (put_order_healthy _ _ _ _ _ _ _ Hf Hb Hd), Ho; simpl.
    apply lookup_insert_eq.
  - intros old'. unfold stored.
    rewrite (put_order_healthy _ _ _ _ _ baseRate derived Hf) by assumption; simpl.
    rewrite lookup_insert_eq; simpl. apply lookup_insert_eq.
Qed.

(** The order created at the rate 1250 is updated at the rate 1300, with
    [customer_rate = 1300]: the row stored has [rate = 1300] and no spread
    profit. *)
Lemma put_order_recomputes_witness :
  exists row,
    orders (db (put_order "2024-04-01" 7 (<["customer_rate" := VNum 1300]> scenario)
                  {| db := sample_store; faults := [] |}).2) !! 7%N = Some row /\
    rate row = 1300%float /\
    rate_profit_lak (fields row) = 0%float.
Proof.
  assert (Hd : computeTotals (<["customer_rate" := VNum 1300]> scenario) 1300
               = Return
                   {| price_thb := 100; shipping_thb := 20; customer_rate := 1300;
                      service_fee_lak := 5000; th_to_la_charge_lak := 2000;
                      actual_th_to_la_cost_lak := 3000;
                      price_lak := 130000; shipping_lak := 26000; total_lak := 163000;
                      rate_profit_lak := 0; net_profit_lak := 4000 |})
    by (vm_compute; reflexivity).
  assert (Hb : current_rate sample_store = Return 1300%float) by (vm_compute; reflexivity).
  destruct (put_order_recomputes "2024-04-01" 7 (<["customer_rate" := VNum 1300]> scenario)
              sample_store [] created_row 1300 _ eq_refl eq_refl Hb Hd)
    as (row & Hs & Hr & _ & _ & _ & Hp & _).
  exists row. exact (conj Hs (conj Hr Hp)).
Defined.




(** ** The summary *)

Lemma rows_empty st : orders st = ∅ -> Sql.rows st = [].
Proof. unfold Sql.rows. intros ->. now rewrite map_to_list_empty. Qed.

Lemma select_sum_empty col p st :
  orders st = ∅ -> Sql.select_sum col p st = (VNull, st).
Proof. intros He. unfold Sql.select_sum. now rewrite rows_empty. Qed.

Lemma select_count_empty p st :
  orders st = ∅ -> Sql.select_count p st = (VNum 0, st).
Proof. intros He. unfold Sql.select_count. now rewrite rows_empty. Qed.

(** [Promise.all] when no query fails: the first query resolves, then the
    others. *)
Lemma Promise_all_cons_healthy {A} (q : store -> A * store) (ms : list (Async A)) st fs :
  healthy fs = true ->
  Promise_all (pool_query q :: ms) {| db := st; faults := fs |}
  = let '(rs, w) := Promise_all ms {| db := (q st).2; faults := tail fs |} in
    match rs with
    | Resolved l => (Resolved ((q st).1 :: l), w)
    | Rejected e => (Rejected e, w)
    end.
Proof.
  intros Hf. simpl. rewrite pool_query_healthy by assumption.
  now destruct (Promise_all ms _) as [[l|e] w].
Qed.

(** C10, as stated, fails: with no order, the summary has every sum and count
    0, but its field [rate_updated] is [null] when the settings row is missing,
    or holds no date. *)
Lemma summary_rate_updated_null :
  (@get_summary iso_engine "2024-03-05" None
     {| db := {| settings := None; orders := ∅ |}; faults := [] |}).1
  = Resolved
      {| status := 200;
         json := BSummary
           {| Summary.date := "2024-03-05";
              Summary.rate := VNum 0;
              Summary.rate_updated := VNull;
              Summary.today := Today.Make 0 0 0 0 0;
              Summary.month := Month.Make 0 0 "2024-03";
              Summary.payments := Payments.Make 0 0 0;
              Summary.gross_value_lak := 0;
              Summary.all_orders_count := 0 |} |} /\
  (@get_summary iso_engine "2024-03-05" None
     {| db := {| settings := Some {| exchange_rate := VStr "1300.00"; updated_at := VNull |};
                 orders := ∅ |};
        faults := [] |}).1
  = Resolved
      {| status := 200;
         json := BSummary
           {| Summary.date := "2024-03-05";
              Summary.rate := VStr "1300.00";
              Summary.rate_updated := VNull;
              Summary.today := Today.Make 0 0 0 0 0;
              Summary.month := Month.Make 0 0 "2024-03";
              Summary.payments := Payments.Make 0 0 0;
              Summary.gross_value_lak := 0;
              Summary.all_orders_count := 0 |} |}.
Proof. vm_compute. split; reflexivity. Qed.

(** C10, amended. When there is no order and the reads go through, the
    summary is returned with every sum and every count 0, as numbers: none of
    them is null or absent. Of the other fields, [rate_updated] is [null] when
    the settings row is missing ([rate] is 0 then) or holds no date. *)
Theorem summary_of_no_orders `{Sql.Engine} (now : string) (query_date : option string)
    (st : store) (fs : list (option string)) :
  orders st = ∅ ->
  healthy fs = true ->
  exists s,
    (get_summary now query_date {| db := st; faults := fs |}).1
    = Resolved {| status := 200; json := BSummary s |} /\
    Summary.today s = Today.Make 0 0 0 0 0 /\
    Month.total_lak (Summary.month s) = 0%float /\
    Month.profit_total (Summary.month s) = 0%float /\
    Summary.payments s = Payments.Make 0 0 0 /\
    Summary.gross_value_lak s = 0%float /\
    Summary.all_orders_count s = 0%float /\
    (settings st = None -> Summary.rate s = VNum 0 /\ Summary.rate_updated s = VNull) /\
    (forall r, settings st = Some r -> updated_at r = VNull -> Summary.rate_updated s = VNull).
Proof.
  intros He Hf.
  unfold get_summary, try_catch, await_.
  rewrite pool_query_healthy by assumption.
  repeat (rewrite Promise_all_cons_healthy by (repeat apply healthy_tail; assumption)).
  rewrite !select_sum_empty, !select_count_empty by assumption.
  simpl. eexists. split; [reflexivity|]. simpl.
  repeat (split; [reflexivity|]). split.
  - intros Hs. now rewrite Hs.
  - intros r Hs Hu. rewrite Hs; simpl. now rewrite Hu.
Qed.

(** The summary of the sample settings with no order, asked for a date. *)
Lemma summary_of_no_orders_witness :
  exists s,
    (@get_summary iso_engine "2024-03-05" (Some "2024-02-29")
       {| db := {| settings := settings sample_store; orders := ∅ |}; faults := [None] |}).1
    = Resolved {| status := 200; json := BSummary s |} /\
    Summary.today s = Today.Make 0 0 0 0 0 /\
    Summary.payments s = Payments.Make 0 0 0 /\
    Summary.all_orders_count s = 0%float.
Proof.
  destruct (@summary_of_no_orders iso_engine "2024-03-05" (Some "2024-02-29")
              {| settings := settings sample_store; orders := ∅ |} [None] eq_refl eq_refl)
    as (s & Hs & Ht & _ & _ & Hp & _ & Hc & _ & _).
  exists s. exact (conj Hs (conj Ht (conj Hp Hc))).
Defined.

(** * Further properties of the handlers *)

(** ** How the handlers run, query by query *)

Lemma pool_query_run {A} (q : store -> A * store) st fs :
  pool_query q {| db := st; faults := fs |}
  = match fs with
    | Some e :: fs' => (Rejected e, {| db := st; faults := fs' |})
    | _ => (Resolved (q st).1, {| db := (q st).2; faults := tail fs |})
    end.
Proof. unfold pool_query; simpl. destruct fs as [|[e|] fs']; simpl; now destruct (q st). Qed.

Lemma getBaseRate_run st fs :
  getBaseRate {| db := st; faults := fs |}
  = match fs with
    | Some e :: fs' => (Rejected e, {| db := st; faults := fs' |})
    | _ => settle (current_rate st) {| db := st; faults := tail fs |}
    end.
Proof.
  unfold getBaseRate, await_. rewrite pool_query_run.
  destruct fs as [|[e|] fs']; simpl; try reflexivity;
    unfold current_rate; now destruct (settings st).
Qed.

Lemma put_order_run now id req_body st fs :
  put_order now id req_body {| db := st; faults := fs |}
  = match fs with
    | Some e :: fs' =>
        (Resolved {| status := 500; json := BError e |}, {| db := st; faults := fs' |})
    | _ =>
        match priced_row now req_body st with
        | Throw m =>
            (Resolved {| status := 500; json := BError m |},
             {| db := st; faults := tail fs |})
        | Return row =>
            match tail fs with
            | Some e :: fs' =>
                (Resolved {| status := 500; json := BError e |},
                 {| db := st; faults := fs' |})
            | _ =>
                match orders st !! id with
                | Some _ =>
                    (Resolved {| status := 200; json := BOrder id row |},
                     {| db := {| settings := settings st;
                                 orders := <[id := row]> (orders st) |};
                        faults := tail (tail fs) |})
                | None =>
                    (Resolved {| status := 404; json := BError "Not found" |},
                     {| db := st; faults := tail (tail fs) |})
                end
            end
        end
    end.
Proof.
  unfold put_order, try_catch, await_, priced_row. rewrite getBaseRate_run.
  destruct fs as [|[e|] fs']; simpl; try reflexivity;
    (destruct (current_rate st) as [b|m]; simpl; [|reflexivity];
     destruct (computeTotals req_body b) as [f|m]; simpl; [|reflexivity];
     rewrite pool_query_run; unfold Sql.update_order).
  - now destruct (orders st !! id).
  - destruct fs' as [|[e|] fs'']; simpl; try reflexivity; now destruct (orders st !! id).
Qed.

Lemma post_order_run now insertId req_body st fs :
  post_order now insertId req_body {| db := st; faults := fs |}
  = match fs with
    | Some e :: fs' =>
        (Resolved {| status := 500; json := BError e |}, {| db := st; faults := fs' |})
    | _ =>
        match priced_row now req_body st with
        | Throw m =>
            (Resolved {| status := 500; json := BError m |},
             {| db := st; faults := tail fs |})
        | Return row =>
            match tail fs with
            | Some e :: fs' =>
                (Resolved {| status := 500; json := BError e |},
                 {| db := st; faults := fs' |})
            | _ =>
                (Resolved {| status := 201; json := BOrder insertId row |},
                 {| db := {| settings := settings st;
                             orders := <[insertId := row]> (orders st) |};
                    faults := tail (tail fs) |})
            end
        end
    end.
Proof.
  unfold post_order, try_catch, await_, priced_row. rewrite getBaseRate_run.
  destruct fs as [|[e|] fs']; simpl; try reflexivity;
    (destruct (current_rate st) as [b|m]; simpl; [|reflexivity];
     destruct (computeTotals req_body b) as [f|m]; simpl; [|reflexivity];
     rewrite ?pool_query_run; unfold Sql.insert_order).
  - reflexivity.
  - now destruct fs' as [|[e|] fs''].
Qed.

Lemma delete_order_run id st fs :
  delete_order id {| db := st; faults := fs |}
  = match fs with
    | Some e :: fs' =>
        (Resolved {| status := 500; json := BError e |}, {| db := st; faults := fs' |})
    | _ =>
        match orders st !! id with
        | Some _ =>
            (Resolved {| status := 200; json := BDeleted |},
             {| db := {| settings := settings st; orders := delete id (orders st) |};
                faults := tail fs |})
        | None =>
            (Resolved {| status := 404; json := BError "Not found" |},
             {| db := st; faults := tail fs |})
        end
    end.
Proof.
  unfold delete_order, try_catch, await_. rewrite pool_query_run.
  unfold Sql.delete_order.
  destruct fs as [|[e|] fs']; simpl; try reflexivity; now destruct (orders st !! id).
Qed.

Lemma get_order_run id st fs :
  get_order id {| db := st; faults := fs |}
  = match fs with
    | Some e :: fs' =>
        (Resolved {| status := 500; json := BError e |}, {| db := st; faults := fs' |})
    | _ =>
        (Resolved
           match orders st !! id with
           | Some row => {| status := 200; json := BOrder id row |}
           | None => {| status := 404; json := BError "Not found" |}
           end,
         {| db := st; faults := tail fs |})
    end.
Proof.
  unfold get_order, try_catch, await_. rewrite pool_query_run.
  unfold Sql.select_order.
  destruct fs as [|[e|] fs']; simpl; try reflexivity; now destruct (orders st !! id).
Qed.

(** The same when no query fails. *)
Lemma put_order_through now id req_body st fs :
  healthy fs = true ->
  put_order now id req_body {| db := st; faults := fs |}
  = match priced_row now req_body st with
    | Throw m =>
        (Resolved {| status := 500; json := BError m |}, {| db := st; faults := tail fs |})
    | Return row =>
        match orders st !! id with
        | Some _ =>
            (Resolved {| status := 200; json := BOrder id row |},
             {| db := {| settings := settings st; orders := <[id := row]> (orders st) |};
                faults := tail (tail fs) |})
        | None =>
            (Resolved {| status := 404; json := BError "Not found" |},
             {| db := st; faults := tail (tail fs) |})
        end
    end.
Proof.
  intros Hf. rewrite put_order_run.
  destruct fs as [|[e|] [|[e'|] fs']]; simpl in *; try discriminate; reflexivity.
Qed.

Lemma post_order_through now insertId req_body st fs :
  healthy fs = true ->
  post_order now insertId req_body {| db := st; faults := fs |}
  = match priced_row now req_body st with
    | Throw m =>
        (Resolved {| status := 500; json := BError m |}, {| db := st; faults := tail fs |})
    | Return row =>
        (Resolved {| status := 201; json := BOrder insertId row |},
         {| db := {| settings := settings st; orders := <[insertId := row]> (orders st) |};
            faults := tail (tail fs) |})
    end.
Proof.
  intros Hf. rewrite post_order_run.
  destruct fs as [|[e|] [|[e'|] fs']]; simpl in *; try discriminate; reflexivity.
Qed.

Lemma delete_order_through id st fs :
  healthy fs = true ->
  delete_order id {| db := st; faults := fs |}
  = match orders st !! id with
    | Some _ =>
        (Resolved {| status := 200; json := BDeleted |},
         {| db := {| settings := settings st; orders := delete id (orders st) |};
            faults := tail fs |})
    | None =>
        (Resolved {| status := 404; json := BError "Not found" |},
         {| db := st; faults := tail fs |})
    end.
Proof.
  intros Hf. rewrite delete_order_run.
  destruct fs as [|[e|] fs']; simpl in *; try discriminate; reflexivity.
Qed.

Lemma get_order_through id st fs :
  healthy fs = true ->
  get_order id {| db := st; faults := fs |}
  = (Resolved
       match orders st !! id with
       | Some row => {| status := 200; json := BOrder id row |}
       | None => {| status := 404; json := BError "Not found" |}
       end,
     {| db := st; faults := tail fs |}).
Proof.
  intros Hf. rewrite get_order_run.
  destruct fs as [|[e|] fs']; simpl in *; try discriminate; reflexivity.
Qed.

Lemma priced_row_settings now req_body st os :
  priced_row now req_body {| settings := settings st; orders := os |}
  = priced_row now req_body st.
Proof. reflexivity. Qed.

(** ** The order handlers, one row at a time *)

(** X1. An order handler touches one row only: after [PUT], [DELETE] or
    [POST] on an id, whatever the body and whatever fails, the settings and
    every other order are as they were. *)
Theorem order_writes_touch_one_row (now : string) (id other : N)
    (req_body : gmap string value) (st : store) (fs : list (option string)) :
  other <> id ->
  let kept (r : outcome response * world) :=
    settings (db r.2) = settings st /\ orders (db r.2) !! other = orders st !! other in
  kept (put_order now id req_body {| db := st; faults := fs |}) /\
  kept (delete_order id {| db := st; faults := fs |}) /\
  kept (post_order now id req_body {| db := st; faults := fs |}).
Proof.
  intros Hne kept. unfold kept.
  rewrite put_order_run, delete_order_run, post_order_run.
  destruct fs as [|[e|] [|[e'|] fs']]; simpl;
    destruct (priced_row now req_body st) as [row|m]; simpl;
    destruct (orders st !! id) as [old|]; simpl;
    rewrite ?lookup_insert_ne, ?lookup_delete_ne by congruence; auto.
Qed.

(** Updating, deleting or creating order 7 leaves order 8 alone. *)
Lemma order_writes_touch_one_row_witness :
  orders (db (put_order "2024-04-01" 7 scenario
                {| db := sample_store; faults := [] |}).2) !! 8%N
  = orders sample_store !! 8%N /\
  orders (db (delete_order 7 {| db := sample_store; faults := [] |}).2) !! 8%N
  = orders sample_store !! 8%N.
Proof.
  assert (Hne : 8%N <> 7%N) by discriminate.
  destruct (order_writes_touch_one_row "2024-04-01" 7 8 scenario sample_store [] Hne)
    as ((_ & Hp) & (_ & Hd) & _).
  exact (conj Hp Hd).
Defined.

(** X2. An order handler always answers, and it changes the tables only when
    it answers with success: a [PUT] or [DELETE] that does not answer 200, and
    a [POST] that does not answer 201, leave the tables as they were. *)
Theorem order_writes_all_or_nothing (now : string) (id : N)
    (req_body : gmap string value) (st : store) (fs : list (option string)) :
  let answers (ok : N) (r : outcome response * world) :=
    exists res, r.1 = Resolved res /\ (status res <> ok -> db r.2 = st) in
  answers 200%N (put_order now id req_body {| db := st; faults := fs |}) /\
  answers 200%N (delete_order id {| db := st; faults := fs |}) /\
  answers 201%N (post_order now id req_body {| db := st; faults := fs |}).
Proof.
  intros answers. unfold answers.
  rewrite put_order_run, delete_order_run, post_order_run.
  destruct fs as [|[e|] [|[e'|] fs']]; simpl;
    destruct (priced_row now req_body st) as [row|m]; simpl;
    destruct (orders st !! id) as [old|]; simpl;
    (split; [|split]); eexists; (split; [reflexivity|]); simpl; intros H;
    solve [reflexivity | now contradiction H].
Qed.

(** X3. Deleting an order that exists, when the queries go through, answers
    200, removes the row, and the id is gone for good: reading it or deleting
    it again answers 404. *)
Theorem delete_order_removes (id : N) (st : store) (fs : list (option string))
    (row : order_row) :
  orders st !! id = Some row ->
  healthy fs = true ->
  let r := delete_order id {| db := st; faults := fs |} in
  r.1 = Resolved {| status := 200; json := BDeleted |} /\
  orders (db r.2) = delete id (orders st) /\
  (get_order id r.2).1 = Resolved {| status := 404; json := BError "Not found" |} /\
  (delete_order id r.2).1 = Resolved {| status := 404; json := BError "Not found" |}.
Proof.
  intros Ho Hf r. unfold r.
  pose proof (healthy_tail _ Hf) as Hf'.
  rewrite delete_order_through, Ho by assumption; simpl.
  rewrite get_order_through, delete_order_through by assumption; simpl.
  rewrite lookup_delete_eq. repeat split.
Qed.

(** Order 7 of the sample store is deleted, then not found. *)
Lemma delete_order_removes_witness :
  (delete_order 7 {| db := sample_store; faults := [] |}).1
  = Resolved {| status := 200; json := BDeleted |} /\
  (get_order 7 (delete_order 7 {| db := sample_store; faults := [] |}).2).1
  = Resolved {| status := 404; json := BError "Not found" |}.
Proof.
  destruct (delete_order_removes 7 sample_store [] created_row eq_refl eq_refl)
    as (H1 & _ & H3 & _).
  exact (conj H1 H3).
Defined.

(** X4. Read your write: a [PUT] on an order that exists, with a body that is
    priced and queries that go through, answers 200 with the row it stored,
    and a [GET] of the id right after answers with that same row. *)
Theorem put_then_get_order (now : string) (id : N) (req_body : gmap string value)
    (st : store) (fs : list (option string)) (old row : order_row) :
  orders st !! id = Some old ->
  healthy fs = true ->
  priced_row now req_body st = Return row ->
  let r := put_order now id req_body {| db := st; faults := fs |} in
  r.1 = Resolved {| status := 200; json := BOrder id row |} /\
  (get_order id r.2).1 = Resolved {| status := 200; json := BOrder id row |}.
Proof.
  intros Ho Hf Hp r. unfold r.
  rewrite put_order_through, Hp, Ho by assumption; simpl.
  rewrite get_order_through by (now do 2 apply healthy_tail); simpl.
  rewrite lookup_insert_eq. repeat split.
Qed.

(** The sample order, updated at the rate 1300 and read back. *)
Lemma put_then_get_order_witness :
  exists row,
    priced_row "2024-04-01" scenario sample_store = Return row /\
    (get_order 7 (put_order "2024-04-01" 7 scenario
                    {| db := sample_store; faults := [] |}).2).1
    = Resolved {| status := 200; json := BOrder 7 row |}.
Proof.
  eexists.
  assert (Hp : priced_row "2024-04-01" scenario sample_store = Return _)
    by (vm_compute; reflexivity).
  exact (conj Hp (proj2 (put_then_get_order "2024-04-01" 7 scenario sample_store []
                           created_row _ eq_refl eq_refl Hp))).
Defined.

(** X5. [PUT] is idempotent: when the queries go through, sending the same
    update a second time gives the same answer and leaves the tables as the
    first left them. *)
Theorem put_order_idempotent (now : string) (id : N) (req_body : gmap string value)
    (st : store) (fs : list (option string)) :
  healthy fs = true ->
  let r1 := put_order now id req_body {| db := st; faults := fs |} in
  let r2 := put_order now id req_body r1.2 in
  r2.1 = r1.1 /\ db r2.2 = db r1.2.
Proof.
  intros Hf r1 r2. unfold r2, r1.
  pose proof (healthy_tail _ Hf) as Hf1.
  pose proof (healthy_tail _ Hf1) as Hf2.
  rewrite (put_order_through _ _ _ _ fs) by assumption.
  destruct (priced_row now req_body st) as [row|m] eqn:Hp;
    [destruct (orders st !! id) as [old|] eqn:Ho|];
    simpl; rewrite put_order_through by assumption;
    rewrite ?priced_row_settings, Hp; simpl;
    rewrite ?lookup_insert_eq, ?Ho, ?insert_insert_eq; auto.
Qed.

(** The same update of the sample order, twice. *)
Lemma put_order_idempotent_witness :
  db (put_order "2024-04-01" 7 scenario
        (put_order "2024-04-01" 7 scenario {| db := sample_store; faults := [] |}).2).2
  = db (put_order "2024-04-01" 7 scenario {| db := sample_store; faults := [] |}).2.
Proof.
  exact (proj2 (put_order_idempotent "2024-04-01" 7 scenario sample_store [] eq_refl)).
Defined.

(** X6. An update replaces the whole order: a text field the body omits (or
    gives as empty) is reset to its default, whatever the row held: the date
    becomes today, the payment status [Unpaid], the order status [Pending],
    the others empty. *)
Theorem put_order_resets_omitted (now : string) (id : N) (req_body : gmap string value)
    (st : store) (fs : list (option string)) (old : order_row)
    (baseRate : float) (derived : totals) :
  orders st !! id = Some old ->
  healthy fs = true ->
  current_rate st = Return baseRate ->
  computeTotals req_body baseRate = Return derived ->
  (forall k, k ∈ text_fields -> ToBoolean (get k req_body) = false) ->
  orders (db (put_order now id req_body {| db := st; faults := fs |}).2) !! id
  = Some
      {| order_date := VStr now; customer_name := VStr ""; product_link := VStr "";
         payment_status := VStr "Unpaid"; order_status := VStr "Pending";
         tracking_no := VStr ""; carrier := VStr ""; tracking_link := VStr "";
         rate := baseRate; fields := derived |}.
Proof.
  intros Ho Hf Hb Hd Hk.
  rewrite put_order_through by assumption.
  unfold priced_row. rewrite Hb; simpl. rewrite Hd; simpl. rewrite Ho; simpl.
  rewrite lookup_insert_eq. unfold order_payload.
  rewrite !js_or_falsy by (apply Hk; unfold text_fields; set_solver).
  reflexivity.
Qed.

(** The sample order, paid and shipped, is updated with the numbers only. *)
Lemma put_order_resets_omitted_witness :
  exists derived,
    computeTotals scenario 1300 = Return derived /\
    orders
      (db (put_order "2024-04-01" 7 scenario
             {| db := {| settings := settings sample_store;
                         orders := {[ 7%N :=
                           {| order_date := VStr "2024-03-05"; customer_name := VStr "Noy";
                              product_link := VStr ""; payment_status := VStr "Paid";
                              order_status := VStr "Shipped"; tracking_no := VStr "TH123";
                              carrier := VStr "Kerry"; tracking_link := VStr "";
                              rate := 1250; fields := fields created_row |} ]} |};
                faults := [] |}).2) !! 7%N
    = Some
        {| order_date := VStr "2024-04-01"; customer_name := VStr "";
           product_link := VStr ""; payment_status := VStr "Unpaid";
           order_status := VStr "Pending"; tracking_no := VStr ""; carrier := VStr "";
           tracking_link := VStr ""; rate := 1300; fields := derived |}.
Proof.
  eexists.
  assert (Hd : computeTotals scenario 1300 = Return _) by (vm_compute; reflexivity).
  assert (Hb : current_rate
                 {| settings := settings sample_store;
                    orders := {[ 7%N :=
                      {| order_date := VStr "2024-03-05"; customer_name := VStr "Noy";
                         product_link := VStr ""; payment_status := VStr "Paid";
                         order_status := VStr "Shipped"; tracking_no := VStr "TH123";
                         carrier := VStr "Kerry"; tracking_link := VStr "";
                         rate := 1250; fields := fields created_row |} ]} |}
               = Return 1300%float) by (vm_compute; reflexivity).
  assert (Hk : forall k, k ∈ text_fields -> ToBoolean (get k scenario) = false).
  { intros k Hin. unfold text_fields in Hin.
    repeat (apply elem_of_cons in Hin as [->|Hin]); [..|now apply elem_of_nil in Hin];
      vm_compute; reflexivity. }
  exact (conj Hd (put_order_resets_omitted "2024-04-01" 7 scenario _ [] _ 1300 _
                    (lookup_singleton_eq _ _) eq_refl Hb Hd Hk)).
Defined.

(** X7. Round trip of a new order: when the queries go through and the body is
    priced, [POST] answers 201 with the new id and a row whose [rate] is the
    base rate of the settings and whose derived fields are those of
    [computeTotals]; a [GET] of that id right after answers with the same row;
    and the table has one row more. *)
Theorem post_then_get_order (now : string) (insertId : N) (req_body : gmap string value)
    (st : store) (fs : list (option string)) (baseRate : float) (derived : totals) :
  orders st !! insertId = None ->
  healthy fs = true ->
  current_rate st = Return baseRate ->
  computeTotals req_body baseRate = Return derived ->
  let r := post_order now insertId req_body {| db := st; faults := fs |} in
  exists row,
    r.1 = Resolved {| status := 201; json := BOrder insertId row |} /\
    rate row = baseRate /\
    fields row = derived /\
    (get_order insertId r.2).1 = Resolved {| status := 200; json := BOrder insertId row |} /\
    size (orders (db r.2)) = S (size (orders st)).
Proof.
  intros Ho Hf Hb Hd r. unfold r.
  rewrite post_order_through by assumption.
  unfold priced_row. rewrite Hb; simpl. rewrite Hd; simpl.
  rewrite get_order_through by (now do 2 apply healthy_tail); simpl.
  rewrite lookup_insert_eq.
  eexists. repeat split. now apply map_size_insert_None.
Qed.

(** The scenario, created as order 8 of the sample store. *)
Lemma post_then_get_order_witness :
  exists row,
    (post_order "2024-04-01" 8 scenario {| db := sample_store; faults := [] |}).1
    = Resolved {| status := 201; json := BOrder 8 row |} /\
    rate row = 1300%float /\
    (get_order 8 (post_order "2024-04-01" 8 scenario
                    {| db := sample_store; faults := [] |}).2).1
    = Resolved {| status := 200; json := BOrder 8 row |}.
Proof.
  assert (Hd : computeTotals scenario 1300
               = Return
                   {| price_thb := 100; shipping_thb := 20; customer_rate := 1350;
                      service_fee_lak := 5000; th_to_la_charge_lak := 2000;
                      actual_th_to_la_cost_lak := 3000;
                      price_lak := 135000; shipping_lak := 27000; total_lak := 169000;
                      rate_profit_lak := 6000; net_profit_lak := 10000 |})
    by (vm_compute; reflexivity).
  assert (Hb : current_rate sample_store = Return 1300%float) by (vm_compute; reflexivity).
  assert (Ho : orders sample_store !! 8%N = None) by (vm_compute; reflexivity).
  destruct (post_then_get_order "2024-04-01" 8 scenario sample_store [] 1300 _
              Ho eq_refl Hb Hd) as (row & H1 & H2 & _ & H4 & _).
  exists row. exact (conj H1 (conj H2 H4)).
Defined.

(** X8. Creating and updating agree: after a [POST], a [PUT] of the same body
    on the new id (same day, same settings, queries going through) answers 200
    with the row the [POST] stored, and changes nothing. *)
Theorem post_then_put_same_body (now : string) (insertId : N)
    (req_body : gmap string value) (st : store) (fs : list (option string))
    (row : order_row) :
  healthy fs = true ->
  priced_row now req_body st = Return row ->
  let r1 := post_order now insertId req_body {| db := st; faults := fs |} in
  let r2 := put_order now insertId req_body r1.2 in
  r1.1 = Resolved {| status := 201; json := BOrder insertId row |} /\
  r2.1 = Resolved {| status := 200; json := BOrder insertId row |} /\
  db r2.2 = db r1.2.
Proof.
  intros Hf Hp r1 r2. unfold r2, r1.
  rewrite post_order_through, Hp by assumption; simpl.
  rewrite put_order_through by (now do 2 apply healthy_tail).
  rewrite priced_row_settings, Hp; simpl.
  rewrite lookup_insert_eq, insert_insert_eq. repeat split.
Qed.

(** The scenario, created as order 8 and updated at once. *)
Lemma post_then_put_same_body_witness :
  db (put_order "2024-04-01" 8 scenario
        (post_order "2024-04-01" 8 scenario {| db := sample_store; faults := [] |}).2).2
  = db (post_order "2024-04-01" 8 scenario {| db := sample_store; faults := [] |}).2.
Proof.
  assert (Hp : priced_row "2024-04-01" scenario sample_store = Return _)
    by (vm_compute; reflexivity).
  exact (proj2 (proj2 (post_then_put_same_body "2024-04-01" 8 scenario sample_store []
                         _ eq_refl Hp))).
Defined.

Lemma computeTotals_ignores k v (payload : gmap string value) baseRate :
  k ∉ numeric_fields ->
  computeTotals (<[k := v]> payload) baseRate = computeTotals payload baseRate.
Proof.
  intros Hk. unfold numeric_fields in Hk.
  unfold computeTotals. rewrite !get_insert_ne by set_solver. reflexivity.
Qed.

Lemma order_payload_ignores k v now (req_body : gmap string value) baseRate f :
  k ∉ text_fields ->
  order_payload now (<[k := v]> req_body) baseRate f = order_payload now req_body baseRate f.
Proof.
  intros Hk. unfold text_fields in Hk.
  unfold order_payload. rewrite !get_insert_ne by set_solver. reflexivity.
Qed.

Lemma priced_row_ignores k v now (req_body : gmap string value) st :
  k ∉ order_fields ->
  priced_row now (<[k := v]> req_body) st = priced_row now req_body st.
Proof.
  intros Hk. unfold order_fields in Hk. apply not_elem_of_app in Hk as [Hn Ht].
  unfold priced_row. destruct (current_rate st) as [b|m]; simpl; [|reflexivity].
  rewrite computeTotals_ignores by assumption.
  destruct (computeTotals req_body b) as [f|m]; simpl; [|reflexivity].
  now rewrite order_payload_ignores.
Qed.

(** X9. The order handlers read the fourteen fields of the body and nothing
    else: a key of another name (an [id], a [rate], a derived field such as
    [total_lak]) has no effect on what [POST] and [PUT] store and answer. The
    derived columns cannot be supplied. *)
Theorem order_handlers_ignore_other_keys (now : string) (id : N) (k : string) (v : value)
    (req_body : gmap string value) (w : world) :
  k ∉ order_fields ->
  put_order now id (<[k := v]> req_body) w = put_order now id req_body w /\
  post_order now id (<[k := v]> req_body) w = post_order now id req_body w.
Proof.
  intros Hk. destruct w as [st fs].
  rewrite !put_order_run, !post_order_run, priced_row_ignores by assumption.
  split; reflexivity.
Qed.

(** A body that names its own [total_lak] is priced as if it did not. *)
Lemma order_handlers_ignore_other_keys_witness :
  put_order "2024-04-01" 7 (<["total_lak" := VNum 1]> scenario)
    {| db := sample_store; faults := [] |}
  = put_order "2024-04-01" 7 scenario {| db := sample_store; faults := [] |}.
Proof.
  assert (Hk : "total_lak" ∉ order_fields)
    by (apply (bool_decide_unpack _); vm_compute; exact I).
  exact (proj1 (order_handlers_ignore_other_keys "2024-04-01" 7 "total_lak" (VNum 1)
                  scenario {| db := sample_store; faults := [] |} Hk)).
Defined.

(** ** Pricing again what was priced *)

Lemma zero_of_sign f : is_zero f = true -> get_sign f = false -> f = zero.
Proof.
  intros Hz Hs.
  assert (Hn : is_nan f = false).
  { rewrite is_nan_spec. rewrite is_zero_spec in Hz. now destruct (Prim2SF f). }
  apply Prim2SF_inj. unfold Prim2SF at 1. now rewrite Hn, Hz, Hs.
Qed.

Lemma Number_reads_back f :
  reads_back f = true -> Number (js_or (VNum f) (VNum 0)) = Return f.
Proof.
  unfold reads_back, js_or, ToBoolean. intros H.
  apply andb_prop in H as [Hn Hz]. apply negb_true_iff in Hn. rewrite Hn, orb_false_r.
  destruct (is_zero f) eqn:Z; simpl in *; [|reflexivity].
  apply negb_true_iff in Hz. now rewrite (zero_of_sign f Z Hz).
Qed.

Lemma Number_truthy f d :
  is_zero f = false -> is_nan f = false -> Number (js_or (VNum f) (VNum d)) = Return f.
Proof. unfold js_or, ToBoolean. now intros -> ->. Qed.

(** X10. Pricing is stable on what it returned: when the six numbers of a
    priced order are submitted again at the same base rate, [computeTotals]
    returns the same order, provided its customer rate is neither 0 nor
    [NaN] (either would be replaced by the base rate) and none of the other
    five is [NaN] or [-0] (which would be read as 0). *)
Theorem computeTotals_reprices (payload : gmap string value) (baseRate : float)
    (o : totals) :
  computeTotals payload baseRate = Return o ->
  reads_back (price_thb o) = true ->
  reads_back (shipping_thb o) = true ->
  reads_back (service_fee_lak o) = true ->
  reads_back (th_to_la_charge_lak o) = true ->
  reads_back (actual_th_to_la_cost_lak o) = true ->
  is_zero (customer_rate o) = false ->
  is_nan (customer_rate o) = false ->
  computeTotals (priced_inputs o) baseRate = Return o.
Proof.
  intros Ho Hp Hs Hf Hc Ha Hz Hn.
  destruct (computeTotals_Return _ _ _ Ho)
    as (_ & _ & _ & _ & _ & _ & _ & Hpl & Hsl & Ht & Hrp & Hnp).
  unfold computeTotals.
  change (get "price_thb" (priced_inputs o)) with (VNum (price_thb o)).
  change (get "shipping_thb" (priced_inputs o)) with (VNum (shipping_thb o)).
  change (get "service_fee_lak" (priced_inputs o)) with (VNum (service_fee_lak o)).
  change (get "th_to_la_charge_lak" (priced_inputs o)) with (VNum (th_to_la_charge_lak o)).
  change (get "actual_th_to_la_cost_lak" (priced_inputs o))
    with (VNum (actual_th_to_la_cost_lak o)).
  change (get "customer_rate" (priced_inputs o)) with (VNum (customer_rate o)).
  rewrite !Number_reads_back by assumption.
  rewrite Number_truthy by assumption. simpl.
  destruct o; simpl in *; subst. reflexivity.
Qed.

(** The scenario, priced at 1300, and priced again from its own numbers. *)
Lemma computeTotals_reprices_witness :
  exists o,
    computeTotals scenario 1300 = Return o /\
    computeTotals (priced_inputs o) 1300 = Return o.
Proof.
  eexists.
  assert (Ho : computeTotals scenario 1300 = Return _) by (vm_compute; reflexivity).
  exact (conj Ho (computeTotals_reprices scenario 1300 _ Ho
                    eq_refl eq_refl eq_refl eq_refl eq_refl eq_refl eq_refl)).
Defined.

(** ** The summary, read by read *)

(** [Promise.all] over reads: all are issued; the first failure of the plan
    decides. *)
Lemma Promise_all_reads {A} (qs : list (store -> A * store)) st fs :
  Forall (fun q => (q st).2 = st) qs ->
  Promise_all (map pool_query qs) {| db := st; faults := fs |}
  = (match first_fault (take (length qs) fs) with
     | Some e => Rejected e
     | None => Resolved (map (fun q => (q st).1) qs)
     end,
     {| db := st; faults := drop (length qs) fs |}).
Proof.
  intros Hq. revert fs. induction Hq as [|q qs Hq _ IH]; intros fs.
  - simpl. now rewrite drop_0.
  - cbn [map Promise_all length]. rewrite pool_query_run.
    destruct fs as [|[e|] fs']; simpl; rewrite ?Hq, IH, ?take_nil, ?drop_nil; simpl;
      try reflexivity; now destruct (first_fault _).

Qed.

(** A sum or a count converts to a number. *)
Lemma Number_column v :
  ToPrimitive_throws v = false ->
  Number (js_or (or_default v (VNum 0)) (VNum 0))
  = Return (ToNumber (js_or (or_default v (VNum 0)) (VNum 0))).
Proof.
  intros Hv. rewrite Number_js_or.
  assert (Hd : ToPrimitive_throws (or_default v (VNum 0)) = false) by now destruct v.
  now rewrite Hd.
Qed.

Lemma Number_sum col p st :
  Number (js_or (or_default (Sql.select_sum col p st).1 (VNum 0)) (VNum 0))
  = Return (ToNumber (js_or (or_default (Sql.select_sum col p st).1 (VNum 0)) (VNum 0))).
Proof. apply Number_column. unfold Sql.select_sum; simpl. now destruct (map col _). Qed.

Lemma Number_count p st :
  Number (js_or (or_default (Sql.select_count p st).1 (VNum 0)) (VNum 0))
  = Return (ToNumber (js_or (or_default (Sql.select_count p st).1 (VNum 0)) (VNum 0))).
Proof. now apply Number_column. Qed.

Ltac reads_of l :=
  lazymatch l with
  | pool_query ?q :: ?r => let r' := reads_of r in constr:(q :: r')
  | _ => constr:(@nil (store -> value * store))
  end.

Lemma get_summary_run `{Sql.Engine} now query_date st fs :
  let r := get_summary now query_date {| db := st; faults := fs |} in
  db r.2 = st /\
  match first_fault (take 12 fs) with
  | Some e => r.1 = Resolved {| status := 500; json := BError e |}
  | None =>
      exists s,
        r.1 = Resolved {| status := 200; json := BSummary s |} /\
        Summary.date s
        = match query_date with
          | Some d => if String.eqb d "" then now else d
          | None => now
          end /\
        Today.other_profit (Summary.today s)
        = (Today.profit_total (Summary.today s) - Today.rate_profit (Summary.today s))%float
  end.
Proof.
  intros r. unfold r, get_summary, try_catch, await_.
  rewrite pool_query_run.
  assert (Hgo : forall gs, first_fault (take 12 (None :: gs)) = first_fault (take 11 gs))
    by reflexivity.
  destruct fs as [|[e|] fs']; [| now split |rewrite Hgo];
    cbn [Sql.select_settings fst snd tail];
    match goal with
    | |- context [Promise_all ?l] =>
        let qs := reads_of l in change l with (map pool_query qs)
    end;
    rewrite Promise_all_reads by (repeat constructor);
    cbn [length]; rewrite ?take_nil;
    (destruct (first_fault _) as [e|]; [now split|]);
    cbn -[Sql.select_sum Sql.select_count Number js_or or_default ToNumber];
    rewrite !Number_sum, !Number_count;
    cbn -[Sql.select_sum Sql.select_count Number js_or or_default ToNumber];
    (split; [reflexivity|]); eexists; (split; [reflexivity|]); split; reflexivity.
Qed.

(** X11. The summary is all or nothing: it answers 200 with a summary exactly
    when its twelve reads (the settings, then the eleven aggregates) all go
    through, and 500 with the message of the first read that failed
    otherwise. In a summary, [date] is the date asked for, or today when none
    or an empty one was given, and [other_profit] is [profit_total] minus
    [rate_profit]. *)
Theorem summary_all_or_nothing `{Sql.Engine} (now : string) (query_date : option string)
    (st : store) (fs : list (option string)) :
  let r := get_summary now query_date {| db := st; faults := fs |} in
  match first_fault (take 12 fs) with
  | Some e => r.1 = Resolved {| status := 500; json := BError e |}
  | None =>
      exists s,
        r.1 = Resolved {| status := 200; json := BSummary s |} /\
        Summary.date s
        = match query_date with
          | Some d => if String.eqb d "" then now else d
          | None => now
          end /\
        Today.other_profit (Summary.today s)
        = (Today.profit_total (Summary.today s) - Today.rate_profit (Summary.today s))%float
  end.
Proof. intros r. apply (get_summary_run now query_date st fs). Qed.

(** ** The listing *)

Lemma digits2_pos_bound m : Zpos m < 2 ^ Zpos (digits2_pos m).
Proof.
  induction m as [m IH|m IH|]; simpl digits2_pos;
    rewrite ?Pos2Z.inj_succ, ?Z.pow_succ_r by apply Pos2Z.is_nonneg; lia.
Qed.

(** A valid double has a mantissa of 53 bits at most. *)
Lemma valid_mantissa s m e :
  valid_binary (S754_finite s m e) = true -> Zpos m < 2 ^ 53.
Proof.
  unfold SpecFloat.valid_binary, bounded, canonical_mantissa, fexp. intros H.
  apply andb_prop in H as [H _]. apply Z.eqb_eq in H.
  assert (Hd : Zpos (digits2_pos m) <= 53) by (unfold prec in H; lia).
  eapply Z.lt_le_trans; [apply digits2_pos_bound|].
  apply Z.pow_le_mono_r; lia.
Qed.

Lemma Prim2SF_200 : Prim2SF 200 = S754_finite false 7036874417766400 (-45).
Proof. reflexivity. Qed.

(** An integer that compares [<= 200] as a double is at most 200. *)
Lemma to_Z_le_200 l n :
  (l <=? 200)%float = true -> Num.to_Z l = Some n -> n <= 200.
Proof.
  rewrite leb_spec, Prim2SF_200. unfold Num.to_Z.
  pose proof (Prim2SF_valid l) as Hv.
  destruct (Prim2SF l) as [s|s| |s m e]; try discriminate.
  { intros _ [= <-]. lia. }
  pose proof (valid_mantissa _ _ _ Hv) as Hm. clear Hv.
  unfold SFleb, SFcompare, cond_Zopp. destruct s.
  - intros _ Hn.
    destruct (Z.leb_spec 0 e) as [He|He].
    + injection Hn as <-.
      assert (0 <= Zpos m * 2 ^ e)
        by (apply Z.mul_nonneg_nonneg; [lia|apply Z.pow_nonneg; lia]).
      lia.
    + destruct (_ =? 0); [|discriminate]. injection Hn as <-.
      assert (0 <= Zpos m / 2 ^ (- e))
        by (apply Z.div_pos; [lia|apply Z.pow_pos_nonneg; lia]).
      lia.
  - destruct (Z.compare_spec e (-45)) as [He|He|He];
      [| |intros Hc; cbv iota in Hc; discriminate Hc].
    + rewrite Pos.compare_cont_spec. unfold Pos.switch_Eq.
      intros Hc Hn.
      assert (Hle : Zpos m <= 7036874417766400).
      { clear - Hc.
        destruct (Pos.compare_spec m 7036874417766400) as [Hm'|Hm'|Hm'].
        - rewrite Hm'. reflexivity.
        - apply Z.lt_le_incl. exact Hm'.
        - discriminate Hc. }
      clear Hc Hm. subst e.
      destruct (Z.leb_spec 0 (-45)) as [Hneg|_]; [clear - Hneg; lia|].
      destruct (_ =? 0); [|discriminate]. injection Hn as <-.
      change (- -45) with 45.
      replace (2 ^ 45) with 35184372088832 by reflexivity.
      apply Z.div_le_upper_bound; clear - Hle; lia.
    + intros _ Hn.
      destruct (Z.leb_spec 0 e) as [Hpos|_]; [clear - He Hpos; lia|].
      destruct (_ =? 0); [|discriminate]. injection Hn as <-.
      assert (H46 : 2 ^ 46 <= 2 ^ (- e)) by (apply Z.pow_le_mono_r; clear - He; lia).
      replace (2 ^ 46) with 70368744177664 in H46 by reflexivity.
      replace (2 ^ 53) with 9007199254740992 in Hm by reflexivity.
      assert (H0 : 0 < 2 ^ (- e)) by (clear - H46; lia).
      apply Z.lt_le_incl, Z.div_lt_upper_bound; [exact H0|].
      clear - Hm H46. nia.
Qed.

(** What is not above 200 is at most 200. *)
Lemma SFleb_200 X :
  X <> S754_nan ->
  SFltb (S754_finite false 7036874417766400 (-45)) X = false ->
  SFleb X (S754_finite false 7036874417766400 (-45)) = true.
Proof.
  unfold SFltb, SFleb, SFcompare.
  destruct X as [s|[]| |[] m e]; try congruence; try reflexivity.
  intros _. rewrite (Z.compare_antisym e (-45)), !Pos.compare_cont_spec.
  rewrite (Pos.compare_antisym m 7036874417766400). unfold Pos.switch_Eq.
  destruct (e ?= -45); simpl; try congruence.
  destruct (m ?= 7036874417766400)%positive; simpl; congruence.
Qed.

(** [Math.min(x, 200)] is [NaN], or at most 200. *)
Lemma Math_min_200 x :
  is_nan (Math_min x 200) = true \/ (Math_min x 200 <=? 200)%float = true.
Proof.
  unfold Math_min. destruct (is_nan x) eqn:Hn; [now left|].
  change (is_nan 200) with false. cbn [orb]. right.
  assert (Ha : min_step infinity x = x \/ min_step infinity x = infinity).
  { unfold min_step. destruct (_ && _); [now left|]. destruct (x <? infinity)%float; auto. }
  unfold min_step at 1. change (is_zero 200) with false. cbn [andb].
  destruct (200 <? min_step infinity x)%float eqn:L; [reflexivity|].
  destruct Ha as [Ha|Ha]; rewrite Ha in *; [|discriminate L].
  rewrite leb_spec, Prim2SF_200. rewrite ltb_spec, Prim2SF_200 in L.
  apply SFleb_200; [|exact L].
  rewrite is_nan_spec in Hn. now destruct (Prim2SF x).
Qed.

Lemma length_insert_desc `{Sql.Listing} a l :
  length (Sql.insert_desc a l) = S (length l).
Proof. induction l as [|b l IH]; simpl; [reflexivity|]. destruct (Sql.newer a b); simpl; lia. Qed.

Lemma length_order_desc `{Sql.Listing} l : length (Sql.order_desc l) = length l.
Proof.
  induction l as [|a l IH]; simpl; [reflexivity|].
  now rewrite length_insert_desc, IH.
Qed.

Lemma elem_of_insert_desc `{Sql.Listing} x a l :
  x ∈ Sql.insert_desc a l -> x = a \/ x ∈ l.
Proof.
  induction l as [|b l IH]; simpl.
  - intros Hx. apply list_elem_of_singleton in Hx. now left.
  - destruct (Sql.newer a b).
    + intros Hx. apply elem_of_cons in Hx. tauto.
    + intros Hx. apply elem_of_cons in Hx as [->|Hx].
      * right. apply list_elem_of_here.
      * destruct (IH Hx); [now left|right; now apply list_elem_of_further].
Qed.

Lemma elem_of_order_desc `{Sql.Listing} x l : x ∈ Sql.order_desc l -> x ∈ l.
Proof.
  induction l as [|a l IH]; simpl; [easy|].
  intros Hx. apply elem_of_insert_desc in Hx as [->|Hx].
  - apply list_elem_of_here.
  - apply list_elem_of_further, IH, Hx.
Qed.

Lemma get_orders_run `{Sql.Listing} query_limit st fs :
  get_orders query_limit {| db := st; faults := fs |}
  = let limit :=
      Math_min
        (parseInt10
           match query_limit with
           | Some l => if String.eqb l "" then "50" else l
           | None => "50"
           end)
        200 in
    match fs with
    | Some e :: fs' =>
        (Resolved {| list_status := 500; list_json := LError e |},
         {| db := st; faults := fs' |})
    | _ =>
        (Resolved
           match (Sql.select_recent limit st).1 with
           | Resolved rows => {| list_status := 200; list_json := LRows rows |}
           | Rejected e => {| list_status := 500; list_json := LError e |}
           end,
         {| db := st; faults := tail fs |})
    end.
Proof.
  unfold get_orders, try_catch, await_, settled, pool_query, resolve,
    Sql.select_recent.
  destruct fs as [|[e|] fs']; simpl; try reflexivity;
    now destruct (Num.to_Z _) as [n|]; [destruct (0 <=? n)|].
Qed.

(** X12. The listing never has more than 200 lines, whatever limit is asked
    for; each line is an order of the table; and when it is not a listing the
    answer is a 500. *)
Theorem get_orders_at_most_200 `{Sql.Listing} (query_limit : option string)
    (st : store) (fs : list (option string)) :
  exists res,
    (get_orders query_limit {| db := st; faults := fs |}).1 = Resolved res /\
    match list_json res with
    | LRows rows =>
        list_status res = 200%N /\
        (length rows <= 200)%nat /\
        forall line, line ∈ rows ->
          exists row, orders st !! Sql.line_id line = Some row /\
                      line = Sql.line_of (Sql.line_id line, row)
    | LError _ => list_status res = 500%N
    end.
Proof.
  rewrite get_orders_run. cbv zeta.
  set (limit := Math_min _ 200).
  assert (Hrows : forall rows, (Sql.select_recent limit st).1 = Resolved rows ->
            (length rows <= 200)%nat /\
            forall line, line ∈ rows ->
              exists row, orders st !! Sql.line_id line = Some row /\
                          line = Sql.line_of (Sql.line_id line, row)).
  { unfold Sql.select_recent; simpl.
    destruct (Num.to_Z limit) as [n|] eqn:Hn; [|discriminate].
    destruct (Z.leb_spec 0 n) as [H0|H0]; [|discriminate].
    intros rows [= <-]. split.
    - rewrite length_map, length_take.
      assert (n <= 200).
      { destruct (Math_min_200
                    (parseInt10
                       match query_limit with
                       | Some l => if String.eqb l "" then "50" else l
                       | None => "50"
                       end)) as [Hnan|Hle].
        - fold limit in Hnan. unfold Num.to_Z in Hn. rewrite is_nan_spec in Hnan.
          destruct (Prim2SF limit); discriminate.
        - fold limit in Hle. exact (to_Z_le_200 _ _ Hle Hn). }
      lia.
    - intros line Hl. apply list_elem_of_fmap in Hl as ([id row] & -> & Hr).
      apply elem_of_take in Hr as (i & Hr & _).
      apply list_elem_of_lookup_2, elem_of_order_desc, elem_of_map_to_list in Hr.
      exists row. split; [exact Hr|reflexivity]. }
  destruct (Sql.select_recent limit st).1 as [rows|e'] eqn:Hs;
    destruct fs as [|[e|] fs']; eexists; (split; [reflexivity|]);
    cbn [list_json list_status]; try reflexivity;
    (split; [reflexivity|now apply Hrows]).
Qed.

(** A number below zero is a negative finite number or [-Infinity]. *)
Lemma below_zero x :
  (x <? 0)%float = true ->
  Prim2SF x = S754_infinity true \/ exists m e, Prim2SF x = S754_finite true m e.
Proof.
  rewrite ltb_spec. change (Prim2SF 0) with (S754_zero false).
  unfold SFltb, SFcompare.
  destruct (Prim2SF x) as [s|[]| |[] m e]; try discriminate; eauto.
Qed.

(** [Math.min] of a number below zero and 200 is that number. *)
Lemma Math_min_below_zero x : (x <? 0)%float = true -> Math_min x 200 = x.
Proof.
  intros Hx. apply below_zero in Hx.
  assert (Hnan : is_nan x = false).
  { apply not_true_is_false. rewrite is_nan_spec.
    destruct Hx as [Hx|(m & e & Hx)]; rewrite Hx; discriminate. }
  assert (Hinf : (x <? infinity)%float = true).
  { rewrite ltb_spec. change (Prim2SF infinity) with (S754_infinity false).
    destruct Hx as [Hx|(m & e & Hx)]; rewrite Hx; reflexivity. }
  assert (H200 : (200 <? x)%float = false).
  { rewrite ltb_spec, Prim2SF_200.
    destruct Hx as [Hx|(m & e & Hx)]; rewrite Hx; reflexivity. }
  unfold Math_min. rewrite Hnan. change (is_nan 200) with false. cbn [orb].
  assert (Hstep : min_step infinity x = x).
  { unfold min_step. change (is_zero infinity) with false.
    rewrite !andb_false_r. cbn [andb]. now rewrite Hinf. }
  rewrite Hstep. unfold min_step. change (is_zero 200) with false.
  cbn [andb]. now rewrite H200.
Qed.

(** A negative finite number is no integer, or a negative one. *)
Lemma to_Z_negative x m e n :
  Prim2SF x = S754_finite true m e -> Num.to_Z x = Some n -> n < 0.
Proof.
  unfold Num.to_Z. intros ->. unfold cond_Zopp.
  destruct (Z.leb_spec 0 e) as [He|He].
  - intros [= <-]. assert (0 < 2 ^ e) by now apply Z.pow_pos_nonneg.
    clear - H. nia.
  - destruct (Z.eqb_spec (Z.pos m mod 2 ^ (- e)) 0) as [Hd|Hd]; [|discriminate].
    intros [= <-]. assert (Hp : 0 < 2 ^ (- e)) by (apply Z.pow_pos_nonneg; lia).
    apply Z.mod_divide in Hd; [|lia].
    apply Z.divide_pos_le in Hd; [|lia].
    assert (0 < Z.pos m / 2 ^ (- e)) by (apply Z.div_str_pos; lia).
    lia.
Qed.

(** X13. With no limit asked for, or an empty one, the listing is of the first
    50 orders in the listing's order: as many lines as the table has orders, up
    to 50. *)
Theorem get_orders_default_limit `{Sql.Listing} (query_limit : option string)
    (st : store) (fs : list (option string)) :
  query_limit = None \/ query_limit = Some "" ->
  first_fault (take 1 fs) = None ->
  let rows :=
    map Sql.line_of (take 50 (Sql.order_desc (map_to_list (orders st)))) in
  (get_orders query_limit {| db := st; faults := fs |}).1
  = Resolved {| list_status := 200; list_json := LRows rows |} /\
  length rows = Nat.min 50 (size (orders st)).
Proof.
  intros Hq Hfs rows. split.
  - rewrite get_orders_run. cbv zeta.
    assert (Hl : Math_min
                   (parseInt10
                      match query_limit with
                      | Some l => if String.eqb l "" then "50" else l
                      | None => "50"
                      end) 200 = 50%float).
    { destruct Hq as [-> | ->]; vm_compute; reflexivity. }
    rewrite Hl. unfold Sql.select_recent.
    change (Num.to_Z 50) with (Some 50). cbn [Z.leb Z.compare fst].
    now destruct fs as [|[e|] fs'].
  - unfold rows. rewrite length_map, length_take, length_order_desc.
    now rewrite length_map_to_list.
Qed.

Lemma get_orders_default_limit_witness :
  (@get_orders iso_listing None {| db := sample_store; faults := [] |}).1
  = Resolved
      {| list_status := 200;
         list_json := LRows [Sql.line_of (7%N, created_row)] |}.
Proof.
  pose proof (@get_orders_default_limit iso_listing None sample_store []
                (or_introl eq_refl) eq_refl) as [Hr _].
  exact Hr.
Defined.

(** X14. A limit that does not start with a number, or is below zero, is not
    replaced by the default: the statement fails and the answer is a 500,
    whatever the table holds. *)
Theorem get_orders_bad_limit `{Sql.Listing} (l : string) (st : store)
    (fs : list (option string)) :
  l <> "" ->
  is_nan (parseInt10 l) = true \/ (parseInt10 l <? 0)%float = true ->
  exists e,
    (get_orders (Some l) {| db := st; faults := fs |}).1
    = Resolved {| list_status := 500; list_json := LError e |}.
Proof.
  intros Hl Hbad. rewrite get_orders_run. cbv zeta.
  apply String.eqb_neq in Hl. rewrite Hl.
  assert (Hs : exists e,
            (Sql.select_recent (Math_min (parseInt10 l) 200) st).1 = Rejected e).
  { unfold Sql.select_recent. cbn [fst].
    destruct Hbad as [Hnan|Hneg].
    - unfold Math_min. rewrite Hnan. cbn [orb].
      change (Num.to_Z nan) with (@None Z). eauto.
    - rewrite (Math_min_below_zero _ Hneg).
      destruct (Num.to_Z (parseInt10 l)) as [n|] eqn:Hn; [|eauto].
      destruct (below_zero _ Hneg) as [Hx|(m & e & Hx)].
      + unfold Num.to_Z in Hn. rewrite Hx in Hn. discriminate.
      + pose proof (to_Z_negative _ _ _ _ Hx Hn) as Hlt.
        destruct (Z.leb_spec 0 n); [lia|eauto]. }
  destruct Hs as [e' Hs]. rewrite Hs.
  destruct fs as [|[e|] fs']; eauto.
Qed.

Lemma get_orders_bad_limit_witness :
  exists e,
    (@get_orders iso_listing (Some "-5")
       {| db := sample_store; faults := [] |}).1
    = Resolved {| list_status := 500; list_json := LError e |}.
Proof.
  apply (@get_orders_bad_limit iso_listing "-5" sample_store []).
  - discriminate.
  - right. vm_compute. reflexivity.
Defined.

(** X15. Reading changes nothing: the rate lookup, the order lookup, the
    summary and the listing leave the tables as they were, whether their
    queries go through or fail. *)
Theorem reads_change_nothing `{Sql.Engine} `{Sql.Listing} (now : string)
    (id : N) (query_date query_limit : option string) (st : store)
    (fs : list (option string)) :
  let w := {| db := st; faults := fs |} in
  db (getBaseRate w).2 = st /\
  db (get_order id w).2 = st /\
  db (get_summary now query_date w).2 = st /\
  db (get_orders query_limit w).2 = st.
Proof.
  cbv zeta. repeat split.
  - rewrite getBaseRate_run. unfold settle.
    destruct fs as [|[e|] fs']; simpl; now destruct (current_rate st).
  - rewrite get_order_run. now destruct fs as [|[e|] fs'].
  - apply (get_summary_run now query_date st fs).
  - rewrite get_orders_run. cbv zeta. now destruct fs as [|[e|] fs'].
Qed.
